(** * A client-side load tester: [pages/index.js] and [public/worker.js]

    The page component [Home] sanitizes the operator's configuration, splits
    the requested work over a pool of web workers, collects the rows the
    workers report in a bounded buffer with running counters, and exports the
    buffer as CSV.  Each worker issues its share of requests one after the
    other, paced by a fixed interval.

    The embedding keeps the source's names.  React state is a record that the
    handlers transform; the queued functional updates of [setRows] and
    [setSummary] are applied in order, which is what React does with them.
    Everything the browser decides (the operator's answer to [confirm], the
    outcome of a [fetch], the clock, the moment a stop message is seen) is an
    explicit input of the model. *)

From Stdlib Require Import ZArith List String Ascii Bool Lia.
From Stdlib Require Import DecimalString DecimalZ DecimalPos.
From Stdlib Require Import Permutation.
Import ListNotations.
Local Open Scope Z_scope.

(** ** The JavaScript values the program computes with *)

Module JS.

(** A JavaScript number, restricted to integers, the two infinities and
    NaN.  Fractions are not covered: every field of a test configuration is
    an integer in the data model, and what the page does with a field such
    as the text 2.5 (it survives the clamp, and the division and the loop
    of [startTest] then work on a fraction) is outside this development.
    Every property below that goes through the partition is therefore one
    of integer-valued fields. *)
Inductive number : Type :=
| NaN
| NegInf
| Fin (z : Z)
| PosInf.

(** What a form field holds: the initial numeric state, or the text of the
    input element after an edit. *)
Inductive value : Type :=
| VNum (n : number)
| VStr (s : string).

(** [NaN] and zero are the falsy numbers. *)
Definition truthy (n : number) : bool :=
  match n with
  | NaN => false
  | Fin 0 => false
  | _ => true
  end.

(** [a || b] on numbers. *)
Definition or (a b : number) : number := if truthy a then a else b.

(** [a <= b]; false as soon as one side is [NaN]. *)
Definition leb (a b : number) : bool :=
  match a, b with
  | NaN, _ | _, NaN => false
  | NegInf, _ => true
  | _, PosInf => true
  | Fin x, Fin y => x <=? y
  | _, _ => false
  end.

Definition Math_max (a b : number) : number :=
  match a, b with
  | NaN, _ | _, NaN => NaN
  | _, _ => if leb a b then b else a
  end.

Definition Math_min (a b : number) : number :=
  match a, b with
  | NaN, _ | _, NaN => NaN
  | _, _ => if leb a b then a else b
  end.

(** [a > b]; false as soon as one side is [NaN]. *)
Definition gt (a b : number) : bool :=
  match a, b with
  | NaN, _ | _, NaN => false
  | PosInf, PosInf => false
  | PosInf, _ => true
  | Fin _, NegInf => true
  | Fin x, Fin y => y <? x
  | _, _ => false
  end.

(** The integer carried by a finite number. *)
Definition int_of (n : number) : Z :=
  match n with
  | Fin z => z
  | _ => 0
  end.

(** Characters the CSV code singles out. *)
Definition dquote : ascii := "034"%char.
Definition comma : ascii := ","%char.
Definition LF : ascii := "010"%char.

(** [String(z)] for an integer (plain decimal digits, which is what
    JavaScript prints for integers below 10^21 in magnitude). *)
Definition toString (z : Z) : string := NilZero.string_of_int (Z.to_int z).

(** [s.slice(0, n)]. *)
Definition slice0 (n : nat) (s : string) : string := substring 0 n s.

(** The global replace of [exportCSV]: every double quote is written
    twice. *)
Fixpoint double_quotes (s : string) : string :=
  match s with
  | EmptyString => EmptyString
  | String ch rest =>
      if Ascii.eqb ch dquote
      then String dquote (String dquote (double_quotes rest))
      else String ch (double_quotes rest)
  end.

(** [parts.join(sep)]. *)
Definition join (sep : string) (parts : list string) : string :=
  String.concat sep parts.

End JS.

(** ** The messages exchanged between the page and its workers *)

Module Protocol.

(** The payload of a ["row"] event. *)
Record Row : Type := mkRow {
  timestamp : string;
  workerId : Z;
  statusCode : option Z;      (* [null] is [None] *)
  timeMs : Z;
  snippet : string;
  error : bool
}.

(** Page to worker. *)
Inductive ToWorker : Type :=
| Start (id : Z) (url : string) (requests : Z) (rps : Z)
| Stop.

(** Worker to page. *)
Inductive FromWorker : Type :=
| RowEv (payload : Row)
| DoneEv (workerId : Z) (sent : Z)
| StoppedEv
| ErrorEv (payload : Row).

End Protocol.

(** ** [pages/index.js] *)

Module Page.
Import Protocol.

Definition MAX_REQS_PER_SEC : Z := 1000.
Definition MAX_TOTAL_REQS : Z := 100000.
Definition MAX_CONCURRENCY : Z := 500.

Record Summary : Type := mkSummary { sent : Z; errors : Z }.

(** The state of the [Home] component.  [workersRef] lists the live worker
    handles (a worker is named by the id it was started with) and [posted]
    logs every message the page has posted to a worker, oldest first.  The
    ref [nextId] is written by [startTest] and read nowhere; it is left
    out. *)
Record Home : Type := mkHome {
  url : string;
  concurrency : JS.value;
  totalRequests : JS.value;
  targetRps : JS.value;
  running : bool;
  rows : list Row;
  summary : Summary;
  workersRef : list Z;
  posted : list (Z * ToWorker)
}.

(** *** The work partition of [startTest] *)

Definition perWorkerRps (rps c : Z) : Z := Z.max 1 (rps / c).
Definition estimatedTotalRps (rps c : Z) : Z := perWorkerRps rps c * c.
Definition requestsPerWorker (trs c : Z) : Z := trs / c.
Definition remainder (trs c : Z) : Z := Z.rem trs c.

Definition assigned (trs c i : Z) : Z :=
  requestsPerWorker trs c + (if i <? remainder trs c then 1 else 0).

(** The values [i] takes in [for (let i = 0; i < c; i++)]. *)
Definition indices (c : Z) : list Z := map Z.of_nat (seq 0 (Z.to_nat c)).

(** The request counts handed out, by worker index. *)
Definition assignments (trs c : Z) : list Z := map (assigned trs c) (indices c).

(** One worker per index, each with its start message. *)
Definition spawn (u : string) (trs c rps : Z) : list (Z * ToWorker) :=
  map (fun i => (i + 1, Start (i + 1) u (assigned trs c i) (perWorkerRps rps c)))
      (indices c).

(** *** [startTest] *)

Inductive StartResult : Type :=
| AlertEnterUrl            (* [alert("Enter target URL")] *)
| Ignored                  (* a run is active *)
| Declined                 (* the operator did not confirm *)
| Started (st : Home).

Section StartTest.

(** The conversion of a string to a number is the language's own. *)
Variable StringToNumber : string -> JS.number.

Definition Number (v : JS.value) : JS.number :=
  match v with
  | JS.VNum n => n
  | JS.VStr s => StringToNumber s
  end.

(** [Math.min(Math.max(1, Number(v) || 1), cap)]. *)
Definition sanitize (cap : Z) (v : JS.value) : JS.number :=
  JS.Math_min (JS.Math_max (JS.Fin 1) (JS.or (Number v) (JS.Fin 1))) (JS.Fin cap).

Definition c_of (st : Home) : Z := JS.int_of (sanitize MAX_CONCURRENCY (concurrency st)).
Definition trs_of (st : Home) : Z := JS.int_of (sanitize MAX_TOTAL_REQS (totalRequests st)).
Definition rps_of (st : Home) : Z := JS.int_of (sanitize MAX_REQS_PER_SEC (targetRps st)).

(** [confirmed] is the operator's answer to the confirmation dialog. *)
Definition startTest (confirmed : bool) (st : Home) : StartResult :=
  if String.eqb (url st) EmptyString then AlertEnterUrl
  else if running st then Ignored
  else
    let c := c_of st in
    let trs := trs_of st in
    let rps := rps_of st in
    if negb confirmed then Declined
    else
      let ws := spawn (url st) trs c rps in
      Started {| url := url st;
                 concurrency := concurrency st;
                 totalRequests := totalRequests st;
                 targetRps := targetRps st;
                 running := true;
                 rows := [];
                 summary := {| sent := 0; errors := 0 |};
                 workersRef := map fst ws;
                 posted := (posted st ++ ws)%list |}.

End StartTest.

(** *** [stopTest] *)

Definition stopTest (st : Home) : Home :=
  {| url := url st;
     concurrency := concurrency st;
     totalRequests := totalRequests st;
     targetRps := targetRps st;
     running := false;
     rows := rows st;
     summary := summary st;
     workersRef := [];
     posted := (posted st ++ map (fun w => (w, Stop)) (workersRef st))%list |}.

(** *** [pushRow] *)

(** The updater given to [setRows]. *)
Definition push (r : Row) (prev : list Row) : list Row :=
  let next := r :: prev in
  if (2000 <? List.length next)%nat then removelast next else next.

(** The updater given to [setSummary]. *)
Definition count (r : Row) (s : Summary) : Summary :=
  {| sent := sent s + 1;
     errors := errors s + (if error r then 1 else 0) |}.

(** [seen] is the [summary] the handler's closure reads in its last line;
    the two updaters work on the state itself. *)
Definition pushRow (seen : Summary) (r : Row) (st : Home) : Home :=
  let st1 := {| url := url st;
                concurrency := concurrency st;
                totalRequests := totalRequests st;
                targetRps := targetRps st;
                running := running st;
                rows := push r (rows st);
                summary := count r (summary st);
                workersRef := workersRef st;
                posted := posted st |} in
  if MAX_TOTAL_REQS <=? sent seen + 1 then stopTest st1 else st1.

(** [worker.onmessage] as installed by [startTest]. *)
Definition onWorkerMessage (seen : Summary) (msg : FromWorker) (st : Home) : Home :=
  match msg with
  | RowEv payload => pushRow seen payload st
  | DoneEv _ _ => st
  | ErrorEv payload => pushRow seen payload st
  | StoppedEv => st
  end.

(** A whole sequence of rows handled by one handler: the closure, and so
    the [summary] it reads, is the same for every call. *)
Definition pushRows (seen : Summary) (rs : list Row) (st : Home) : Home :=
  fold_left (fun acc r => pushRow seen r acc) rs st.

(** The messages of the workers handled one after the other by one
    handler. *)
Definition handle (seen : Summary) (msgs : list FromWorker) (st : Home) : Home :=
  fold_left (fun acc m => onWorkerMessage seen m acc) msgs st.

(** The effect run when the page is mounted: a field above its cap is set
    to the cap.  (A field that holds text is compared as a number.) *)
Definition enforceCaps (StringToNumber : string -> JS.number) (st : Home) : Home :=
  {| url := url st;
     concurrency :=
       if JS.gt (Number StringToNumber (concurrency st)) (JS.Fin MAX_CONCURRENCY)
       then JS.VNum (JS.Fin MAX_CONCURRENCY) else concurrency st;
     totalRequests :=
       if JS.gt (Number StringToNumber (totalRequests st)) (JS.Fin MAX_TOTAL_REQS)
       then JS.VNum (JS.Fin MAX_TOTAL_REQS) else totalRequests st;
     targetRps :=
       if JS.gt (Number StringToNumber (targetRps st)) (JS.Fin MAX_REQS_PER_SEC)
       then JS.VNum (JS.Fin MAX_REQS_PER_SEC) else targetRps st;
     running := running st;
     rows := rows st;
     summary := summary st;
     workersRef := workersRef st;
     posted := posted st |}.

(** A run from the click on Start, confirmed by the operator, to the rows
    [rs] coming in.  The handlers are those [startTest] installs, closures of
    the render in which it was called: the [summary] they read is the one of
    the state before the click. *)
Definition run (StringToNumber : string -> JS.number) (before : Home) (rs : list Row)
  : option Home :=
  match startTest StringToNumber true before with
  | Started st => Some (pushRows (summary before) rs st)
  | _ => None
  end.

(** *** [exportCSV] *)

Definition header : string := "timestamp,workerId,statusCode,timeMs,snippet,error".

(** A number or-ed with the empty string inside the template: nothing for
    zero, the digits otherwise. *)
Definition number_or_empty (n : Z) : string :=
  if n =? 0 then EmptyString else JS.toString n.

Definition statusCode_cell (r : Row) : string :=
  match statusCode r with
  | None => EmptyString
  | Some n => number_or_empty n
  end.

Definition error_cell (r : Row) : string := if error r then "1" else "0".

Definition csv_line (r : Row) : string :=
  (timestamp r ++ "," ++ JS.toString (workerId r) ++ "," ++ statusCode_cell r ++ ","
   ++ number_or_empty (timeMs r) ++ ","
   ++ String JS.dquote (JS.double_quotes (snippet r) ++ String JS.dquote ("," ++ error_cell r)))%string.

Definition exportCSV (st : Home) : string :=
  let csv := map csv_line (rev (rows st)) in
  JS.join (String JS.LF EmptyString) (header :: csv).

End Page.

(** ** [public/worker.js] *)

Module Worker.
Import Protocol.

(** How a [fetch] ended: a response with its status and, when it could be
    read, its body; or a rejection with the error's message, if any. *)
Inductive FetchResult : Type :=
| Response (status : Z) (text : option string)
| Rejected (message : option string).

(** What the outside world contributes to one turn of the loop. *)
Record Attempt : Type := mkAttempt {
  stopped : bool;        (* the flag as read at the top of the turn *)
  start : Z;             (* [Date.now()] before the fetch *)
  fetched : FetchResult;
  settled : Z;           (* [Date.now()] when the fetch settled *)
  iso : string;          (* [new Date().toISOString()] *)
  looped : Z             (* [Date.now()] after the row was posted *)
}.

(** What the worker does to the outside world. *)
Inductive Effect : Type :=
| PostMessage (m : FromWorker)
| Sleep (ms : Z).

Definition intervalMs (rps : Z) : Z := Z.max 1 (1000 / Z.max 1 rps).

(** The row posted for one attempt. *)
Definition row_of (id : Z) (a : Attempt) : Row :=
  match fetched a with
  | Response status text =>
      {| timestamp := iso a;
         workerId := id;
         statusCode := Some status;
         timeMs := settled a - start a;
         snippet := match text with
                    | Some t => JS.slice0 300 t
                    | None => "[no-text]"
                    end;
         error := 400 <=? status |}
  | Rejected message =>
      {| timestamp := iso a;
         workerId := id;
         statusCode := None;
         timeMs := settled a - start a;
         snippet := match message with
                    | Some m => if String.eqb m EmptyString then "error"
                                else JS.slice0 300 m
                    | None => "error"
                    end;
         error := true |}
  end.

(** [const wait = intervalMs - elapsedLoop; if (wait > 0) await sleep(wait)]. *)
Definition wait_of (interval : Z) (a : Attempt) : Z := interval - (looped a - start a).

Definition pace (interval : Z) (a : Attempt) : list Effect :=
  if 0 <? wait_of interval a then [Sleep (wait_of interval a)] else [].

(** [if (sent % 50 === 0) await sleep(0)]. *)
Definition yield (sent : Z) : list Effect :=
  if Z.rem sent 50 =? 0 then [Sleep 0] else [].

(** The [for] loop: [todo] turns are left, [i] is the index of the next
    one and [sent] the counter.  The result is what the loop did and the
    final counter. *)
Fixpoint loop (env : nat -> Attempt) (id interval : Z) (todo i : nat) (sent : Z)
  : list Effect * Z :=
  match todo with
  | O => ([], sent)
  | S todo' =>
      let a := env i in
      if stopped a then ([], sent)
      else
        let '(later, final) := loop env id interval todo' (S i) (sent + 1) in
        ((PostMessage (RowEv (row_of id a)) :: pace interval a ++ yield (sent + 1) ++ later)%list,
         final)
  end.

(** [self.onmessage].  The fetches are those of [env], whatever the target.
    A stop message sets the flag that a loop under way reads at the top of
    its next turn (the [stopped] of that turn in [env]) and is answered at
    once. *)
Definition onmessage (env : nat -> Attempt) (msg : ToWorker) : list Effect :=
  match msg with
  | Start id _ requests rps =>
      let '(did, sent) := loop env id (intervalMs rps) (Z.to_nat requests) 0 0 in
      (did ++ [PostMessage (DoneEv id sent)])%list
  | Stop => [PostMessage StoppedEv]
  end.

(** The rows, the done events and the pauses among a worker's effects. *)
Definition rows_of (es : list Effect) : list Row :=
  flat_map (fun e => match e with PostMessage (RowEv r) => [r] | _ => [] end) es.

Definition dones_of (es : list Effect) : list (Z * Z) :=
  flat_map (fun e => match e with PostMessage (DoneEv w n) => [(w, n)] | _ => [] end) es.

Definition sleeps_of (es : list Effect) : list Z :=
  flat_map (fun e => match e with Sleep ms => [ms] | _ => [] end) es.

(** The messages a worker posts, in order. *)
Definition posts_of (es : list Effect) : list FromWorker :=
  flat_map (fun e => match e with PostMessage m => [m] | _ => [] end) es.

End Worker.

(** ** Reading a CSV text back

    The repository only writes CSV.  The reader below is the reading side of
    the round trip the specification asks for: the usual record grammar
    (fields separated by commas, records by line feeds, a field in double
    quotes may hold any character, a quote inside it being written twice),
    followed by the conversion of the six cells of a record to a row.  An
    empty status cell reads as [null] and an empty time cell as 0, the two
    values the exporter prints as nothing. *)

Module CsvReader.
Import Protocol.

Inductive mode : Type :=
| FieldStart      (* nothing of the field has been read *)
| Bare            (* inside a field without quotes *)
| Quoted          (* inside a quoted field *)
| QuoteSeen.      (* inside a quoted field, just after a quote *)

Definition snoc (s : string) (ch : ascii) : string :=
  (s ++ String ch EmptyString)%string.

(** [fld] is the field being read, [rec] the fields of the record being
    read and [recs] the records read so far. *)
Fixpoint scan (m : mode) (fld : string) (rec : list string)
         (recs : list (list string)) (s : string) : option (list (list string)) :=
  match s with
  | EmptyString =>
      match m with
      | Quoted => None
      | _ => Some (recs ++ [rec ++ [fld]])
      end
  | String ch rest =>
      match m with
      | FieldStart | Bare =>
          if Ascii.eqb ch JS.comma then scan FieldStart EmptyString (rec ++ [fld]) recs rest
          else if Ascii.eqb ch JS.LF then scan FieldStart EmptyString [] (recs ++ [rec ++ [fld]]) rest
          else if Ascii.eqb ch JS.dquote then
            match m with
            | FieldStart => scan Quoted EmptyString rec recs rest
            | _ => None
            end
          else scan Bare (snoc fld ch) rec recs rest
      | Quoted =>
          if Ascii.eqb ch JS.dquote then scan QuoteSeen fld rec recs rest
          else scan Quoted (snoc fld ch) rec recs rest
      | QuoteSeen =>
          if Ascii.eqb ch JS.dquote then scan Quoted (snoc fld ch) rec recs rest
          else if Ascii.eqb ch JS.comma then scan FieldStart EmptyString (rec ++ [fld]) recs rest
          else if Ascii.eqb ch JS.LF then scan FieldStart EmptyString [] (recs ++ [rec ++ [fld]]) rest
          else None
      end
  end.

(** The records of a text, each a list of cells. *)
Definition records (s : string) : option (list (list string)) :=
  scan FieldStart EmptyString [] [] s.

Definition read_int (s : string) : option Z :=
  option_map Z.of_int (NilZero.int_of_string s).

Definition read_status (s : string) : option (option Z) :=
  if String.eqb s EmptyString then Some None else option_map Some (read_int s).

Definition read_time (s : string) : option Z :=
  if String.eqb s EmptyString then Some 0 else read_int s.

Definition read_flag (s : string) : option bool :=
  if String.eqb s "1" then Some true
  else if String.eqb s "0" then Some false
  else None.

Definition read_row (cells : list string) : option Row :=
  match cells with
  | [ts; w; sc; tm; sn; er] =>
      match read_int w, read_status sc, read_time tm, read_flag er with
      | Some w', Some sc', Some tm', Some er' =>
          Some {| timestamp := ts; workerId := w'; statusCode := sc';
                  timeMs := tm'; snippet := sn; error := er' |}
      | _, _, _, _ => None
      end
  | _ => None
  end.

Fixpoint read_rows (body : list (list string)) : option (list Row) :=
  match body with
  | [] => Some []
  | cells :: more =>
      match read_row cells, read_rows more with
      | Some r, Some rs => Some (r :: rs)
      | _, _ => None
      end
  end.

(** The header cells and the rows of a CSV text. *)
Definition read (s : string) : option (list string * list Row) :=
  match records s with
  | Some (h :: body) => option_map (fun rs => (h, rs)) (read_rows body)
  | _ => None
  end.

(** A string that can stand in a cell without quotes. *)
Definition plain_char (ch : ascii) : bool :=
  negb (Ascii.eqb ch JS.comma) && negb (Ascii.eqb ch JS.LF) && negb (Ascii.eqb ch JS.dquote).

Fixpoint plain (s : string) : bool :=
  match s with
  | EmptyString => true
  | String ch rest => plain_char ch && plain rest
  end.

End CsvReader.

(** ** Vocabulary of the properties *)

(** The sum of a list of counts. *)
Definition total (l : list Z) : Z := fold_right Z.add 0 l.

(** [c] is [raw] brought into the range from 1 to [cap]. *)
Definition clamps_into (cap : Z) (raw : JS.number) (c : Z) : Prop :=
  1 <= c <= cap /\
  (forall z, raw = JS.Fin z -> cap < z -> c = cap) /\
  (forall z, raw = JS.Fin z -> z < 1 -> c = 1) /\
  (forall z, raw = JS.Fin z -> 1 <= z <= cap -> c = z) /\
  (raw = JS.PosInf -> c = cap) /\
  (raw = JS.NegInf -> c = 1).

(** The conversion of the texts a number field can hold: nothing, or a
    decimal integer; anything else is not a number. *)
Definition decimal_number (s : string) : JS.number :=
  if String.eqb s EmptyString then JS.Fin 0
  else match NilZero.int_of_string s with
       | Some d => JS.Fin (Z.of_int d)
       | None => JS.NaN
       end.

(** A page freshly loaded, as [useState] initialises it, with a target. *)
Definition fresh (u : string) : Page.Home :=
  {| Page.url := u;
     Page.concurrency := JS.VNum (JS.Fin 10);
     Page.totalRequests := JS.VNum (JS.Fin 1000);
     Page.targetRps := JS.VNum (JS.Fin 200);
     Page.running := false;
     Page.rows := [];
     Page.summary := {| Page.sent := 0; Page.errors := 0 |};
     Page.workersRef := [];
     Page.posted := [] |}.

(** Two rows as a worker reports them: an answered request and a failed
    one. *)
Definition answered_row : Protocol.Row :=
  {| Protocol.timestamp := "2024-05-01T10:00:00.000Z";
     Protocol.workerId := 1;
     Protocol.statusCode := Some 200;
     Protocol.timeMs := 12;
     Protocol.snippet := "<html>";
     Protocol.error := false |}.

Definition failed_row : Protocol.Row :=
  {| Protocol.timestamp := "2024-05-01T10:00:00.250Z";
     Protocol.workerId := 2;
     Protocol.statusCode := None;
     Protocol.timeMs := 0;
     Protocol.snippet := "Failed to fetch";
     Protocol.error := true |}.

(** The summary a handler reads during the first run of a page: the one of
    the render that started the run. *)
Definition first_seen : Page.Summary := {| Page.sent := 0; Page.errors := 0 |}.

(** A run on the verge of the global cap: 99999 rows were counted, the
    buffer is full and two workers are live. *)
Definition near_cap : Page.Home :=
  {| Page.url := "http://localhost/";
     Page.concurrency := JS.VNum (JS.Fin 2);
     Page.totalRequests := JS.VNum (JS.Fin 100000);
     Page.targetRps := JS.VNum (JS.Fin 200);
     Page.running := true;
     Page.rows := repeat answered_row 2000;
     Page.summary := {| Page.sent := 99999; Page.errors := 0 |};
     Page.workersRef := [1; 2];
     Page.posted := Page.spawn "http://localhost/" 100000 2 200 |}.

(** The run of [near_cap] once one more row has brought the count to the
    cap. *)
Definition stopped_at_cap : Page.Home :=
  Page.pushRow (Page.summary near_cap) answered_row near_cap.

(** The first run of a fresh page asked for 100000 requests over two
    workers, after its 100000 rows have come in. *)
Definition full_order : Page.Home :=
  {| Page.url := "http://localhost/";
     Page.concurrency := JS.VStr "2";
     Page.totalRequests := JS.VStr "100000";
     Page.targetRps := JS.VNum (JS.Fin 200);
     Page.running := false;
     Page.rows := [];
     Page.summary := {| Page.sent := 0; Page.errors := 0 |};
     Page.workersRef := [];
     Page.posted := [] |}.

Definition first_run_at_cap : option Page.Home :=
  Page.run decimal_number full_order (repeat answered_row (Z.to_nat Page.MAX_TOTAL_REQS)).

(** The number of turns a worker's loop takes: it ends with the turns to do
    or at the first turn that finds the stop flag set. *)
Fixpoint turns (env : nat -> Worker.Attempt) (todo i : nat) : nat :=
  match todo with
  | O => O
  | S todo' => if Worker.stopped (env i) then O else S (turns env todo' (S i))
  end.

(** The wait of the specification's rate pacer after an attempt, from the
    interval and the attempt's own two clock readings. *)
Definition nextWaitMs (interval : Z) (a : Worker.Attempt) : Z :=
  Z.max 0 (interval - (Worker.looped a - Worker.start a)).

(** A world in which no stop is ever requested and every fetch fails at
    once with a network error. *)
Definition all_fail (i : nat) : Worker.Attempt :=
  {| Worker.stopped := false;
     Worker.start := 1000 * Z.of_nat i;
     Worker.fetched := Worker.Rejected (Some "Failed to fetch"%string);
     Worker.settled := 1000 * Z.of_nat i + 3;
     Worker.iso := "2024-05-01T10:00:00.000Z";
     Worker.looped := 1000 * Z.of_nat i + 4 |}.

(** The cells of the header and of the record of a row, as a reader is to
    find them: the snippet is the snippet itself, without the quoting. *)
Definition header_cells : list string :=
  ["timestamp"; "workerId"; "statusCode"; "timeMs"; "snippet"; "error"]%string.

Definition cells (r : Protocol.Row) : list string :=
  [Protocol.timestamp r; JS.toString (Protocol.workerId r); Page.statusCode_cell r;
   Page.number_or_empty (Protocol.timeMs r); Protocol.snippet r; Page.error_cell r].

(** The rows the round trip is stated for: a timestamp without comma, quote
    or line feed, as every ISO-8601 timestamp is, and a status that is not
    the number 0. *)
Definition exportable (r : Protocol.Row) : bool :=
  CsvReader.plain (Protocol.timestamp r)
  && match Protocol.statusCode r with
     | Some n => negb (n =? 0)
     | None => true
     end.

(** The header line the specification gives. *)
Definition specified_header : string :=
  "timestamp,unitId,statusCode,timeMs,snippet,error".

(** A row with a status of 0 and the same row without a status. *)
Definition status_zero_row : Protocol.Row :=
  {| Protocol.timestamp := "2024-05-01T10:00:00.000Z";
     Protocol.workerId := 1;
     Protocol.statusCode := Some 0;
     Protocol.timeMs := 12;
     Protocol.snippet := "x";
     Protocol.error := false |}.

Definition status_null_row : Protocol.Row :=
  {| Protocol.timestamp := "2024-05-01T10:00:00.000Z";
     Protocol.workerId := 1;
     Protocol.statusCode := None;
     Protocol.timeMs := 12;
     Protocol.snippet := "x";
     Protocol.error := false |}.

(** A page whose buffer holds the given rows, most recent first. *)
Definition holding (rs : list Protocol.Row) : Page.Home :=
  {| Page.url := "http://localhost/";
     Page.concurrency := JS.VNum (JS.Fin 10);
     Page.totalRequests := JS.VNum (JS.Fin 1000);
     Page.targetRps := JS.VNum (JS.Fin 200);
     Page.running := false;
     Page.rows := rs;
     Page.summary := {| Page.sent := Z.of_nat (List.length rs);
                        Page.errors := Z.of_nat (List.length (filter Protocol.error rs)) |};
     Page.workersRef := [];
     Page.posted := [] |}.

(** A row whose snippet holds quotes, a comma and a line feed. *)
Definition tricky_row : Protocol.Row :=
  {| Protocol.timestamp := "2024-05-01T10:00:01.000Z";
     Protocol.workerId := 3;
     Protocol.statusCode := Some 404;
     Protocol.timeMs := 7;
     Protocol.snippet :=
       ("{" ++ String JS.dquote ("a" ++ String JS.dquote (": 1," ++ String JS.LF "}")))%string;
     Protocol.error := true |}.

(** The two modes of the reader outside quotes. *)
Definition unquoted (m : CsvReader.mode) : Prop :=
  m = CsvReader.FieldStart \/ m = CsvReader.Bare.

(** What [join] puts after the first line. *)
Fixpoint following (lines : list string) : string :=
  match lines with
  | [] => EmptyString
  | l :: more => String JS.LF (l ++ following more)
  end.

(** The rows among the messages of the workers that the page pushes: the
    payloads of the row events and of the error events. *)
Definition payloads (msgs : list Protocol.FromWorker) : list Protocol.Row :=
  flat_map (fun m => match m with
                     | Protocol.RowEv r => [r]
                     | Protocol.ErrorEv r => [r]
                     | _ => []
                     end) msgs.

(** The done events among the messages of the workers: who is done, and
    with what count. *)
Definition done_events (msgs : list Protocol.FromWorker) : list (Z * Z) :=
  flat_map (fun m => match m with
                     | Protocol.DoneEv w n => [(w, n)]
                     | _ => []
                     end) msgs.

(** The request count a message to a worker carries. *)
Definition requests_of (m : Protocol.ToWorker) : Z :=
  match m with
  | Protocol.Start _ _ n _ => n
  | Protocol.Stop => 0
  end.

(** What a pool of workers posts back, worker after worker, when each one
    is sent its message; [envs w] is the world as worker [w] meets it. *)
Definition reports (envs : Z -> nat -> Worker.Attempt)
           (ws : list (Z * Protocol.ToWorker)) : list Protocol.FromWorker :=
  flat_map (fun wm => Worker.posts_of (Worker.onmessage (envs (fst wm)) (snd wm))) ws.

(** The buffer and the counters of a page agree: the error count is at
    most the sent count, and the buffer holds as many rows as were sent, up
    to its cap. *)
Definition consistent (st : Page.Home) : Prop :=
  0 <= Page.errors (Page.summary st) <= Page.sent (Page.summary st) /\
  Z.of_nat (List.length (Page.rows st)) = Z.min (Page.sent (Page.summary st)) 2000.

(** A world in which no stop is ever requested and every fetch is answered
    at once with status 200. *)
Definition all_answer (w : Z) (i : nat) : Worker.Attempt :=
  {| Worker.stopped := false;
     Worker.start := 1000 * Z.of_nat i;
     Worker.fetched := Worker.Response 200 (Some "ok"%string);
     Worker.settled := 1000 * Z.of_nat i + 3;
     Worker.iso := "2024-05-01T10:00:00.000Z";
     Worker.looped := 1000 * Z.of_nat i + 4 |}.

(** A world in which the stop flag is found set from the third turn on. *)
Definition stop_at_two (i : nat) : Worker.Attempt :=
  {| Worker.stopped := (2 <=? i)%nat;
     Worker.start := 1000 * Z.of_nat i;
     Worker.fetched := Worker.Response 200 (Some "ok"%string);
     Worker.settled := 1000 * Z.of_nat i + 3;
     Worker.iso := "2024-05-01T10:00:00.000Z";
     Worker.looped := 1000 * Z.of_nat i + 4 |}.

(** A page asked for three requests over two workers. *)
Definition small_order : Page.Home :=
  {| Page.url := "http://localhost/";
     Page.concurrency := JS.VStr "2";
     Page.totalRequests := JS.VStr "3";
     Page.targetRps := JS.VNum (JS.Fin 200);
     Page.running := false;
     Page.rows := [];
     Page.summary := {| Page.sent := 0; Page.errors := 0 |};
     Page.workersRef := [];
     Page.posted := [] |}.

(** That page once the run has started. *)
Definition small_started : Page.Home :=
  {| Page.url := "http://localhost/";
     Page.concurrency := JS.VStr "2";
     Page.totalRequests := JS.VStr "3";
     Page.targetRps := JS.VNum (JS.Fin 200);
     Page.running := true;
     Page.rows := [];
     Page.summary := first_seen;
     Page.workersRef := [1; 2];
     Page.posted := [(1, Protocol.Start 1 "http://localhost/" 2 100);
                     (2, Protocol.Start 2 "http://localhost/" 1 100)] |}.

(** The same page after a run that counted 100000 rows and was stopped. *)
Definition after_full_run : Page.Home :=
  {| Page.url := "http://localhost/";
     Page.concurrency := JS.VStr "2";
     Page.totalRequests := JS.VStr "3";
     Page.targetRps := JS.VNum (JS.Fin 200);
     Page.running := false;
     Page.rows := [answered_row];
     Page.summary := {| Page.sent := 100000; Page.errors := 0 |};
     Page.workersRef := [];
     Page.posted := [] |}.

(** A fresh page on which the operator has emptied the field of the total
    number of requests. *)
Definition empty_total : Page.Home :=
  {| Page.url := "http://localhost/";
     Page.concurrency := JS.VNum (JS.Fin 10);
     Page.totalRequests := JS.VStr EmptyString;
     Page.targetRps := JS.VNum (JS.Fin 200);
     Page.running := false;
     Page.rows := [];
     Page.summary := {| Page.sent := 0; Page.errors := 0 |};
     Page.workersRef := [];
     Page.posted := [] |}.

(** * Properties *)

(** ** The work partition *)

Section Partition.
Import Page.

Lemma total_app (l1 l2 : list Z) : total (l1 ++ l2) = total l1 + total l2.
Proof.
  induction l1 as [|x l1 IH]; simpl; [reflexivity|].
  rewrite IH. lia.
Qed.

Lemma total_repeat (x : Z) (n : nat) : total (repeat x n) = Z.of_nat n * x.
Proof.
  induction n as [|n IH]; [reflexivity|].
  cbn [repeat total fold_right]. fold (total (repeat x n)). rewrite IH. lia.
Qed.

Lemma map_constant {A B} (f : A -> B) (b : B) (l : list A) :
  (forall a, In a l -> f a = b) -> map f l = repeat b (List.length l).
Proof.
  induction l as [|a l IH]; intros Hf; [reflexivity|].
  simpl. rewrite (Hf a (or_introl eq_refl)). f_equal.
  apply IH. intros a' Ha'. apply Hf. now right.
Qed.

Lemma remainder_is_mod (trs c : Z) :
  0 <= trs -> 0 < c -> remainder trs c = trs mod c.
Proof.
  intros Ht Hc. unfold remainder. apply Z.rem_mod_nonneg; assumption.
Qed.

(** The shape of the partition: the first [trs mod c] workers get one
    request more than the others. *)
Lemma assignments_shape (trs c : Z) :
  0 <= trs -> 0 < c ->
  assignments trs c =
    repeat (trs / c + 1) (Z.to_nat (trs mod c))
    ++ repeat (trs / c) (Z.to_nat (c - trs mod c)).
Proof.
  intros Ht Hc.
  pose proof (Z.mod_pos_bound trs c Hc) as Hr.
  unfold assignments, indices.
  replace (Z.to_nat c) with (Z.to_nat (trs mod c) + Z.to_nat (c - trs mod c))%nat by lia.
  rewrite seq_app, !map_app. f_equal.
  - rewrite (map_constant (assigned trs c) (trs / c + 1)).
    + now rewrite length_map, length_seq.
    + intros i Hi. apply in_map_iff in Hi as (k & <- & Hk). apply in_seq in Hk.
      unfold assigned, requestsPerWorker. rewrite remainder_is_mod by assumption.
      destruct (Z.ltb_spec (Z.of_nat k) (trs mod c)); lia.
  - rewrite (map_constant (assigned trs c) (trs / c)).
    + now rewrite length_map, length_seq.
    + intros i Hi. apply in_map_iff in Hi as (k & <- & Hk). apply in_seq in Hk.
      unfold assigned, requestsPerWorker. rewrite remainder_is_mod by assumption.
      destruct (Z.ltb_spec (Z.of_nat k) (trs mod c)); lia.
Qed.

Lemma assignments_length (trs c : Z) : List.length (assignments trs c) = Z.to_nat c.
Proof. unfold assignments, indices. now rewrite !length_map, length_seq. Qed.

(** C3.  For a total of at least one request over at least one worker, the
    partition gives [floor(total / workers)] requests to every worker and
    one more to the first [total mod workers] of them (by index from 0), so
    the counts add up to the total exactly and any two of them differ by at
    most one; three workers and ten requests get 4, 3 and 3. *)
Theorem partition_conserves_total (trs c : Z) :
  1 <= trs -> 1 <= c ->
  assignments trs c =
    repeat (trs / c + 1) (Z.to_nat (trs mod c))
    ++ repeat (trs / c) (Z.to_nat (c - trs mod c)) /\
  (forall i, 0 <= i < c ->
     nth_error (assignments trs c) (Z.to_nat i)
     = Some (trs / c + (if i <? trs mod c then 1 else 0))) /\
  List.length (assignments trs c) = Z.to_nat c /\
  total (assignments trs c) = trs /\
  (forall x y, In x (assignments trs c) -> In y (assignments trs c) -> x - y <= 1) /\
  assignments 10 3 = [4; 3; 3].
Proof.
  intros Ht Hc.
  assert (Hshape := assignments_shape trs c ltac:(lia) ltac:(lia)).
  pose proof (Z.mod_pos_bound trs c ltac:(lia)) as Hr.
  split; [exact Hshape|]. split; [|split; [apply assignments_length|split; [|split]]].
  - intros i Hi. unfold assignments, indices.
    rewrite nth_error_map, nth_error_map, nth_error_seq.
    destruct (Nat.ltb_spec (Z.to_nat i) (Z.to_nat c)); [|lia].
    cbn [option_map]. unfold assigned, requestsPerWorker.
    rewrite remainder_is_mod by lia. rewrite Nat.add_0_l, Z2Nat.id by lia. reflexivity.
  - rewrite Hshape, total_app, !total_repeat.
    rewrite !Z2Nat.id by lia.
    pose proof (Z.div_mod trs c ltac:(lia)). nia.
  - intros x y Hx Hy. rewrite Hshape in Hx, Hy.
    apply in_app_or in Hx, Hy.
    destruct Hx as [Hx|Hx], Hy as [Hy|Hy];
      apply repeat_spec in Hx, Hy; lia.
  - reflexivity.
Qed.

Lemma partition_conserves_total_witness :
  (1 <= 7 /\ 1 <= 4) /\
  total (assignments 7 4) = 7 /\ assignments 7 4 = [2; 2; 2; 1].
Proof.
  split; [lia|].
  destruct (partition_conserves_total 7 4 ltac:(lia) ltac:(lia))
    as (_ & _ & _ & Hsum & _).
  split; [exact Hsum | reflexivity].
Defined.

(** C6.  For a target rate and a worker count of at least one, every worker
    is paced at [max(1, floor(target / workers))] requests per second, which
    is at least one, and the estimated aggregate rate, that rate times the
    number of workers, is at most [max(target, workers)]; a target of 5 over
    3 workers gives 1 per worker and 3 in aggregate. *)
Theorem perWorkerRps_bounds (rps c : Z) :
  1 <= rps -> 1 <= c ->
  perWorkerRps rps c = Z.max 1 (rps / c) /\
  1 <= perWorkerRps rps c /\
  estimatedTotalRps rps c = perWorkerRps rps c * c /\
  estimatedTotalRps rps c <= Z.max rps c /\
  perWorkerRps 5 3 = 1 /\
  estimatedTotalRps 5 3 = 3.
Proof.
  intros Hr Hc. unfold estimatedTotalRps, perWorkerRps.
  repeat split; try lia.
  pose proof (Z.mul_div_le rps c ltac:(lia)).
  destruct (Z.max_spec 1 (rps / c)) as [[? ->]|[? ->]]; lia.
Qed.

Lemma perWorkerRps_bounds_witness :
  (1 <= 200 /\ 1 <= 10) /\
  perWorkerRps 200 10 = 20 /\ estimatedTotalRps 200 10 <= Z.max 200 10.
Proof.
  split; [lia|].
  destruct (perWorkerRps_bounds 200 10 ltac:(lia) ltac:(lia))
    as (_ & _ & _ & Hle & _).
  split; [reflexivity | exact Hle].
Defined.

End Partition.

(** ** The sanitized configuration *)

Section Sanitize.
Import Page.
Variable StringToNumber : string -> JS.number.

Local Abbreviation Number := (Number StringToNumber).
Local Abbreviation sanitize := (sanitize StringToNumber).

(** Whatever the raw value, sanitizing yields an integer, and that integer
    is the raw value clamped, with 1 standing for a falsy raw value. *)
Lemma sanitize_is_clamp (cap : Z) (v : JS.value) :
  1 <= cap ->
  sanitize cap v =
    JS.Fin (match Number v with
            | JS.NaN | JS.NegInf => 1
            | JS.PosInf => cap
            | JS.Fin z => Z.min (Z.max 1 z) cap
            end).
Proof.
  intros Hcap. unfold Page.sanitize.
  destruct (Page.Number StringToNumber v) as [| |z|]; cbn.
  - destruct (Z.leb_spec 1 cap); [reflexivity|lia].
  - destruct (Z.leb_spec 1 cap); [reflexivity|lia].
  - destruct z as [|p|p]; cbn.
    + destruct (Z.leb_spec 1 cap); [f_equal; lia|lia].
    + destruct (Z.leb_spec 1 (Z.pos p)); cbn.
      * destruct (Z.leb_spec (Z.pos p) cap); f_equal; lia.
      * lia.
    + destruct (Z.leb_spec 1 cap); [f_equal; lia|lia].
  - reflexivity.
Qed.

Lemma sanitize_clamps_into (cap : Z) (v : JS.value) :
  1 <= cap -> clamps_into cap (Number v) (JS.int_of (sanitize cap v)).
Proof.
  intros Hcap. rewrite sanitize_is_clamp by assumption. cbn [JS.int_of].
  unfold clamps_into.
  destruct (Page.Number StringToNumber v) as [| |z|];
    repeat split; intros; try discriminate; try lia;
    match goal with H : JS.Fin _ = JS.Fin _ |- _ => injection H as -> end; lia.
Qed.

Lemma started_iff (confirmed : bool) (st : Home) :
  (exists st', startTest StringToNumber confirmed st = Started st') <->
  (url st <> EmptyString /\ running st = false /\ confirmed = true).
Proof.
  unfold startTest.
  destruct (String.eqb_spec (url st) EmptyString) as [He|He].
  - split; [intros [st' H]; discriminate | intros [H _]; contradiction].
  - destruct (running st).
    + split; [intros [st' H]; discriminate | intros (_ & H & _); discriminate].
    + destruct confirmed; cbn.
      * split; [intros _; auto | intros _; eexists; reflexivity].
      * split; [intros [st' H]; discriminate | intros (_ & _ & H); discriminate].
Qed.

(** C9.  Whatever the raw configuration, [startTest] brings each numeric
    field into its range before it partitions the work (the worker count
    into 1..500, the total into 1..100000, the target rate into 1..1000): a
    value above the cap becomes the cap, a value below 1 becomes 1, a value
    in range is kept.  Whether the run starts depends on the target URL, on
    no run being active and on the operator's confirmation only, never on
    a numeric field, and the run that starts is the one of the clamped
    values. *)
Theorem startTest_clamps (st : Home) :
  (sanitize MAX_CONCURRENCY (concurrency st) = JS.Fin (c_of StringToNumber st) /\
   clamps_into 500 (Number (concurrency st)) (c_of StringToNumber st)) /\
  (sanitize MAX_TOTAL_REQS (totalRequests st) = JS.Fin (trs_of StringToNumber st) /\
   clamps_into 100000 (Number (totalRequests st)) (trs_of StringToNumber st)) /\
  (sanitize MAX_REQS_PER_SEC (targetRps st) = JS.Fin (rps_of StringToNumber st) /\
   clamps_into 1000 (Number (targetRps st)) (rps_of StringToNumber st)) /\
  (forall confirmed,
     (exists st', startTest StringToNumber confirmed st = Started st') <->
     (url st <> EmptyString /\ running st = false /\ confirmed = true)) /\
  (forall st', startTest StringToNumber true st = Started st' ->
     posted st' =
       (posted st ++ spawn (url st) (trs_of StringToNumber st)
                           (c_of StringToNumber st) (rps_of StringToNumber st))%list /\
     List.length (workersRef st') = Z.to_nat (c_of StringToNumber st)).
Proof.
  split; [|split; [|split; [|split]]].
  - split.
    + unfold c_of. now rewrite sanitize_is_clamp.
    + apply (sanitize_clamps_into MAX_CONCURRENCY). unfold MAX_CONCURRENCY; lia.
  - split.
    + unfold trs_of. now rewrite sanitize_is_clamp.
    + apply (sanitize_clamps_into MAX_TOTAL_REQS). unfold MAX_TOTAL_REQS; lia.
  - split.
    + unfold rps_of. now rewrite sanitize_is_clamp.
    + apply (sanitize_clamps_into MAX_REQS_PER_SEC). unfold MAX_REQS_PER_SEC; lia.
  - intros confirmed. apply started_iff.
  - intros st' H. unfold startTest in H.
    destruct (String.eqb (url st) EmptyString); [discriminate|].
    destruct (running st); [discriminate|]. cbn in H.
    injection H as <-. cbn [posted workersRef]. split; [reflexivity|].
    unfold spawn, indices. now rewrite !length_map, length_seq.
Qed.

(** C10, as the code has it.  When the numeric conversion of an operator's
    input is NaN or 0 (an empty, non-numeric or zero input), the sanitized
    field [startTest] uses is 1, because the fallback to 1 comes before the
    clamp.  So the three values given to the partition are at least 1, and
    so is the rate sent to every worker.  The request count sent to a worker
    is never negative, but it is not always positive: with more workers than
    requests the last worker is started with a count of 0. *)
Theorem sanitize_falsy_is_one (s : string) (cap : Z) (st : Home) :
  StringToNumber s = JS.NaN \/ StringToNumber s = JS.Fin 0 ->
  1 <= cap ->
  sanitize cap (JS.VStr s) = JS.Fin 1 /\
  (concurrency st = JS.VStr s -> c_of StringToNumber st = 1) /\
  (totalRequests st = JS.VStr s -> trs_of StringToNumber st = 1) /\
  (targetRps st = JS.VStr s -> rps_of StringToNumber st = 1) /\
  1 <= c_of StringToNumber st /\
  1 <= trs_of StringToNumber st /\
  1 <= rps_of StringToNumber st /\
  (forall w id u n r,
     In (w, Protocol.Start id u n r)
        (spawn (url st) (trs_of StringToNumber st)
               (c_of StringToNumber st) (rps_of StringToNumber st)) ->
     1 <= r /\ 0 <= n) /\
  (trs_of StringToNumber st < c_of StringToNumber st ->
   In (c_of StringToNumber st,
       Protocol.Start (c_of StringToNumber st) (url st) 0
                      (perWorkerRps (rps_of StringToNumber st) (c_of StringToNumber st)))
      (spawn (url st) (trs_of StringToNumber st)
             (c_of StringToNumber st) (rps_of StringToNumber st))).
Proof.
  intros Hs Hcap.
  assert (Hone : forall cap', 1 <= cap' -> sanitize cap' (JS.VStr s) = JS.Fin 1).
  { intros cap' Hcap'. rewrite sanitize_is_clamp by assumption. cbn [Page.Number].
    destruct Hs as [-> | ->]; [reflexivity|f_equal; lia]. }
  destruct (sanitize_clamps_into MAX_CONCURRENCY (concurrency st))
    as (Hc & _); [unfold MAX_CONCURRENCY; lia|].
  destruct (sanitize_clamps_into MAX_TOTAL_REQS (totalRequests st))
    as (Ht & _); [unfold MAX_TOTAL_REQS; lia|].
  destruct (sanitize_clamps_into MAX_REQS_PER_SEC (targetRps st))
    as (Hr & _); [unfold MAX_REQS_PER_SEC; lia|].
  fold (c_of StringToNumber st) in Hc. fold (trs_of StringToNumber st) in Ht.
  fold (rps_of StringToNumber st) in Hr.
  split; [now apply Hone|].
  split; [intros E; unfold c_of; rewrite E, Hone;
          [reflexivity|unfold MAX_CONCURRENCY; lia]|].
  split; [intros E; unfold trs_of; rewrite E, Hone;
          [reflexivity|unfold MAX_TOTAL_REQS; lia]|].
  split; [intros E; unfold rps_of; rewrite E, Hone;
          [reflexivity|unfold MAX_REQS_PER_SEC; lia]|].
  split; [lia|]. split; [lia|]. split; [lia|]. split.
  - intros w id u n r Hin. unfold spawn in Hin.
    apply in_map_iff in Hin as (i & E & _). injection E as _ _ _ <- <-.
    split; [unfold perWorkerRps; lia|].
    unfold assigned, requestsPerWorker.
    pose proof (Z.div_pos (trs_of StringToNumber st) (c_of StringToNumber st)
                  ltac:(lia) ltac:(lia)).
    destruct (i <? remainder (trs_of StringToNumber st) (c_of StringToNumber st)); lia.
  - intros Hless. unfold spawn. apply in_map_iff.
    exists (c_of StringToNumber st - 1). split.
    + replace (c_of StringToNumber st - 1 + 1) with (c_of StringToNumber st) by lia.
      do 2 f_equal. unfold assigned, requestsPerWorker.
      rewrite remainder_is_mod by lia.
      rewrite Z.div_small, Z.mod_small by lia.
      destruct (Z.ltb_spec (c_of StringToNumber st - 1) (trs_of StringToNumber st)); lia.
    + unfold indices. apply in_map_iff.
      exists (Z.to_nat (c_of StringToNumber st - 1)). split; [lia|].
      apply in_seq. lia.
Qed.

End Sanitize.

Lemma sanitize_falsy_is_one_witness :
  (decimal_number EmptyString = JS.NaN \/ decimal_number EmptyString = JS.Fin 0) /\
  1 <= 500 /\
  Page.sanitize decimal_number 500 (JS.VStr EmptyString) = JS.Fin 1.
Proof.
  split; [right; reflexivity|]. split; [lia|].
  apply (sanitize_falsy_is_one decimal_number EmptyString 500 (fresh "http://localhost/")).
  - right; reflexivity.
  - lia.
Defined.

(** The claim C10 fails on the code.  An empty total is sanitized to 1, as
    the claim says; with the ten workers of a fresh page the run that starts
    then sends one request to the first worker and a count of 0 to each of
    the nine others, so a value that is not positive does reach the
    workers. *)
Lemma falsy_total_counterexample :
  decimal_number EmptyString = JS.Fin 0 /\
  Page.sanitize decimal_number Page.MAX_TOTAL_REQS (Page.totalRequests empty_total)
  = JS.Fin 1 /\
  option_map (fun st => map (fun wm => requests_of (snd wm)) (Page.posted st))
             (Page.run decimal_number empty_total [])
  = Some [1; 0; 0; 0; 0; 0; 0; 0; 0; 0] /\
  option_map (fun st => existsb (fun wm => requests_of (snd wm) <=? 0) (Page.posted st))
             (Page.run decimal_number empty_total [])
  = Some true.
Proof. repeat split. Qed.

(** ** The row buffer and the counters *)

Section Aggregator.
Import Protocol Page.

Lemma pushRow_rows (seen : Summary) (r : Row) (st : Home) :
  rows (pushRow seen r st) = push r (rows st).
Proof. unfold pushRow. destruct (MAX_TOTAL_REQS <=? sent seen + 1); reflexivity. Qed.

Lemma pushRow_summary (seen : Summary) (r : Row) (st : Home) :
  summary (pushRow seen r st) = count r (summary st).
Proof. unfold pushRow. destruct (MAX_TOTAL_REQS <=? sent seen + 1); reflexivity. Qed.

Lemma pushRows_cons (seen : Summary) (r : Row) (rs : list Row) (st : Home) :
  pushRows seen (r :: rs) st = pushRows seen rs (pushRow seen r st).
Proof. reflexivity. Qed.

Lemma pushRows_snoc (seen : Summary) (rs : list Row) (r : Row) (st : Home) :
  pushRows seen (rs ++ [r]) st = pushRow seen r (pushRows seen rs st).
Proof. unfold pushRows. now rewrite fold_left_app. Qed.

Lemma pushRows_app (seen : Summary) (rs more : list Row) (st : Home) :
  pushRows seen (rs ++ more) st = pushRows seen more (pushRows seen rs st).
Proof. unfold pushRows. now rewrite fold_left_app. Qed.

(** On a buffer within the cap, [push] keeps the 2000 most recent rows. *)
Lemma push_firstn (r : Row) (prev : list Row) :
  (List.length prev <= 2000)%nat -> push r prev = firstn 2000 (r :: prev).
Proof.
  intros Hlen. unfold push.
  destruct (Nat.ltb_spec 2000 (List.length (r :: prev))) as [Hgt|Hle].
  - rewrite removelast_firstn_len. f_equal. cbn [List.length] in *. lia.
  - symmetry. apply firstn_all2. exact Hle.
Qed.

Lemma push_head (r : Row) (prev : list Row) : hd_error (push r prev) = Some r.
Proof.
  unfold push.
  destruct (Nat.ltb_spec 2000 (List.length (r :: prev))) as [Hgt|Hle]; [|reflexivity].
  destruct prev as [|x prev]; [cbn in Hgt; lia|reflexivity].
Qed.

Lemma firstn_app_firstn {A} (n : nat) (l1 l2 : list A) :
  firstn n (l1 ++ firstn n l2) = firstn n (l1 ++ l2).
Proof.
  rewrite !firstn_app, firstn_firstn. do 2 f_equal. lia.
Qed.

(** The buffer after a sequence of rows: the 2000 most recent of them and
    of what was there, the most recent first. *)
Lemma pushRows_rows (seen : Summary) (rs : list Row) (st : Home) :
  (List.length (rows st) <= 2000)%nat ->
  rows (pushRows seen rs st) = firstn 2000 (rev rs ++ rows st).
Proof.
  revert st. induction rs as [|r rs IH]; intros st Hlen.
  - unfold pushRows. cbn [fold_left rev app]. symmetry. now apply firstn_all2.
  - rewrite pushRows_cons, IH.
    + rewrite pushRow_rows, push_firstn by assumption.
      rewrite firstn_app_firstn. cbn [rev]. now rewrite <- app_assoc.
    + rewrite pushRow_rows, push_firstn by assumption. apply firstn_le_length.
Qed.

Lemma pushRows_summary (seen : Summary) (rs : list Row) (st : Home) :
  sent (summary (pushRows seen rs st)) = sent (summary st) + Z.of_nat (List.length rs) /\
  errors (summary (pushRows seen rs st))
  = errors (summary st) + Z.of_nat (List.length (filter error rs)).
Proof.
  revert st. induction rs as [|r rs IH]; intros st.
  - unfold pushRows. cbn [fold_left List.length filter]. lia.
  - rewrite pushRows_cons. destruct (IH (pushRow seen r st)) as [Hs He].
    rewrite Hs, He, pushRow_summary. cbn [count sent errors filter List.length].
    destruct (error r); cbn [List.length]; lia.
Qed.

(** C4.  From a buffer within the cap (the empty one a run starts with),
    after any number of rows the buffer holds at most 2000 rows, namely
    the most recent ones, the most recent first: its head is the row
    inserted last, and a row pushed on a full buffer evicts the oldest row,
    at the tail. *)
Theorem buffer_keeps_recent (seen : Summary) (rs : list Row) (st : Home) :
  (List.length (rows st) <= 2000)%nat ->
  (List.length (rows (pushRows seen rs st)) <= 2000)%nat /\
  rows (pushRows seen rs st) = firstn 2000 (rev rs ++ rows st) /\
  (forall r earlier, rs = earlier ++ [r] ->
     hd_error (rows (pushRows seen rs st)) = Some r) /\
  (forall r, List.length (rows (pushRows seen rs st)) = 2000%nat ->
     rows (pushRow seen r (pushRows seen rs st))
     = r :: removelast (rows (pushRows seen rs st))) /\
  (forall r, (List.length (rows (pushRows seen rs st)) < 2000)%nat ->
     rows (pushRow seen r (pushRows seen rs st))
     = r :: rows (pushRows seen rs st)).
Proof.
  intros Hlen. pose proof (pushRows_rows seen rs st Hlen) as Hrows.
  split; [rewrite Hrows; apply firstn_le_length|].
  split; [exact Hrows|]. split; [|split].
  - intros r earlier ->. rewrite pushRows_snoc, pushRow_rows. apply push_head.
  - intros r Hfull. rewrite pushRow_rows. unfold push.
    cbn [List.length]. rewrite Hfull. cbn [Nat.ltb Nat.leb].
    destruct (Nat.ltb_spec 2000 2001) as [_|?]; [|lia].
    destruct (rows (pushRows seen rs st)); [discriminate|reflexivity].
  - intros r Hroom. rewrite pushRow_rows. unfold push.
    destruct (Nat.ltb_spec 2000 (List.length (r :: rows (pushRows seen rs st))));
      [cbn [List.length] in *; lia|reflexivity].
Qed.

(** C5.  After any sequence of rows in a run, [summary.sent] has grown by
    the number of rows handled, failures included, and [summary.errors] by
    the number of those whose [error] is true, however many rows the buffer
    has evicted; from the zeroed summary of a fresh run they are these two
    numbers, and neither counter ever decreases. *)
Theorem counters_count_rows (seen : Summary) (rs : list Row) (st : Home) :
  sent (summary (pushRows seen rs st))
  = sent (summary st) + Z.of_nat (List.length rs) /\
  errors (summary (pushRows seen rs st))
  = errors (summary st) + Z.of_nat (List.length (filter error rs)) /\
  (summary st = {| sent := 0; errors := 0 |} ->
     sent (summary (pushRows seen rs st)) = Z.of_nat (List.length rs) /\
     errors (summary (pushRows seen rs st)) = Z.of_nat (List.length (filter error rs))) /\
  (forall r,
     sent (summary (pushRow seen r (pushRows seen rs st)))
     = sent (summary (pushRows seen rs st)) + 1 /\
     errors (summary (pushRows seen rs st))
     <= errors (summary (pushRow seen r (pushRows seen rs st)))) /\
  sent (summary st) <= sent (summary (pushRows seen rs st)) /\
  errors (summary st) <= errors (summary (pushRows seen rs st)).
Proof.
  destruct (pushRows_summary seen rs st) as [Hs He].
  split; [exact Hs|]. split; [exact He|]. split; [|split; [|split]].
  - intros E. rewrite Hs, He, E. cbn. lia.
  - intros r. rewrite pushRow_summary. cbn [count sent errors].
    destruct (error r); lia.
  - lia.
  - lia.
Qed.

End Aggregator.

Lemma buffer_keeps_recent_witness :
  (List.length (Page.rows (fresh "http://localhost/")) <= 2000)%nat /\
  Page.rows (Page.pushRows first_seen [answered_row; failed_row] (fresh "http://localhost/"))
  = [failed_row; answered_row].
Proof.
  split; [cbn; lia|].
  destruct (buffer_keeps_recent first_seen [answered_row; failed_row]
              (fresh "http://localhost/") ltac:(cbn; lia)) as (_ & Hrows & _).
  rewrite Hrows. reflexivity.
Defined.

(** ** The defensive stop *)

Section AutoStop.
Import Protocol Page.

Lemma pushRow_stops (seen : Summary) (r : Row) (st : Home) :
  MAX_TOTAL_REQS <= sent seen + 1 ->
  running (pushRow seen r st) = false /\
  workersRef (pushRow seen r st) = [] /\
  posted (pushRow seen r st)
  = (posted st ++ map (fun w => (w, Stop)) (workersRef st))%list.
Proof.
  intros H. unfold pushRow.
  destruct (Z.leb_spec MAX_TOTAL_REQS (sent seen + 1)); [|lia].
  repeat split.
Qed.

Lemma pushRow_goes_on (seen : Summary) (r : Row) (st : Home) :
  sent seen + 1 < MAX_TOTAL_REQS ->
  running (pushRow seen r st) = running st /\
  workersRef (pushRow seen r st) = workersRef st /\
  posted (pushRow seen r st) = posted st.
Proof.
  intros H. unfold pushRow.
  destruct (Z.leb_spec MAX_TOTAL_REQS (sent seen + 1)); [lia|].
  repeat split.
Qed.

(** A handler that reads a zero [sent], as every handler of the first run
    of a page does, never stops the run, however many rows it handles. *)
Lemma first_run_never_stops (rs : list Row) (st : Home) :
  running (pushRows first_seen rs st) = running st /\
  workersRef (pushRows first_seen rs st) = workersRef st /\
  posted (pushRows first_seen rs st) = posted st.
Proof.
  revert st. induction rs as [|r rs IH]; intros st; [repeat split|].
  rewrite pushRows_cons.
  destruct (IH (pushRow first_seen r st)) as (-> & -> & ->).
  apply pushRow_goes_on. unfold first_seen, MAX_TOTAL_REQS. cbn. lia.
Qed.

(** C1, as the code has it.  [pushRow] calls [stopTest] when the [sent] it
    reads from [summary], plus one for the row at hand, has reached
    [MAX_TOTAL_REQS], and only then: a stop is posted to every live worker,
    the list of workers is emptied and [running] becomes false.  [pushRow]
    has no gate of its own: a row that arrives after the stop is put at the
    head of the buffer and counted like any other. *)
Theorem pushRow_auto_stop (seen : Summary) (r : Row) (st : Home) :
  MAX_TOTAL_REQS <= sent seen + 1 ->
  (running (pushRow seen r st) = false /\
   workersRef (pushRow seen r st) = [] /\
   posted (pushRow seen r st)
   = (posted st ++ map (fun w => (w, Stop)) (workersRef st))%list) /\
  (forall seen' r',
     rows (pushRow seen' r' (pushRow seen r st)) = push r' (rows (pushRow seen r st)) /\
     hd_error (rows (pushRow seen' r' (pushRow seen r st))) = Some r' /\
     sent (summary (pushRow seen' r' (pushRow seen r st)))
     = sent (summary (pushRow seen r st)) + 1 /\
     errors (summary (pushRow seen' r' (pushRow seen r st)))
     = errors (summary (pushRow seen r st)) + (if error r' then 1 else 0)) /\
  (forall seen' r' st',
     sent seen' + 1 < MAX_TOTAL_REQS ->
     running (pushRow seen' r' st') = running st' /\
     workersRef (pushRow seen' r' st') = workersRef st' /\
     posted (pushRow seen' r' st') = posted st').
Proof.
  intros H. split; [now apply pushRow_stops|]. split.
  - intros seen' r'. rewrite pushRow_rows, pushRow_summary.
    split; [reflexivity|]. split; [apply push_head|]. split; reflexivity.
  - intros seen' r' st'. apply pushRow_goes_on.
Qed.

Lemma pushRow_auto_stop_witness :
  MAX_TOTAL_REQS <= sent (summary near_cap) + 1 /\
  running (pushRow (summary near_cap) failed_row near_cap) = false /\
  posted (pushRow (summary near_cap) failed_row near_cap)
  = (posted near_cap ++ [(1, Stop); (2, Stop)])%list.
Proof.
  assert (H : MAX_TOTAL_REQS <= sent (summary near_cap) + 1)
    by (unfold MAX_TOTAL_REQS; cbn; lia).
  split; [exact H|].
  destruct (pushRow_auto_stop (summary near_cap) failed_row near_cap H)
    as ((Hrun & _ & Hposted) & _).
  split; [exact Hrun | exact Hposted].
Defined.

(** The claim C1 fails on the code.  When the count read by the handler
    does reach the cap and the run is stopped, the next row is accepted all
    the same, whether the handler then reads the old count or the new one:
    it becomes the head of the buffer and [sent] goes to 100001.  And in the
    first run of a page the handlers read a zero count throughout: the
    100000 rows of a run of that size bring [sent] to the cap, yet the run
    is still marked as running, its two workers are still registered and
    the only messages ever posted are the two that started them. *)
Lemma auto_stop_counterexample :
  (sent (summary stopped_at_cap) = MAX_TOTAL_REQS /\
   running stopped_at_cap = false) /\
  (hd_error (rows stopped_at_cap) <> Some failed_row /\
   hd_error (rows (pushRow (summary near_cap) failed_row stopped_at_cap))
   = Some failed_row /\
   sent (summary (pushRow (summary near_cap) failed_row stopped_at_cap)) = 100001 /\
   errors (summary (pushRow (summary near_cap) failed_row stopped_at_cap)) = 1 /\
   hd_error (rows (pushRow (summary stopped_at_cap) failed_row stopped_at_cap))
   = Some failed_row /\
   sent (summary (pushRow (summary stopped_at_cap) failed_row stopped_at_cap)) = 100001) /\
  option_map (fun st => (sent (summary st), running st, workersRef st, posted st))
             first_run_at_cap
  = Some (MAX_TOTAL_REQS, true, [1; 2],
          [(1, Start 1 "http://localhost/" 50000 100);
           (2, Start 2 "http://localhost/" 50000 100)]).
Proof.
  unfold stopped_at_cap, first_run_at_cap. split; [|split].
  - split; [rewrite pushRow_summary; reflexivity|].
    apply pushRow_stops. unfold MAX_TOTAL_REQS. cbn. lia.
  - rewrite !pushRow_rows, !pushRow_summary, !push_head.
    repeat split.
    unfold near_cap. cbn [rows]. unfold push.
    destruct (Nat.ltb_spec 2000 (List.length (answered_row :: repeat answered_row 2000)))
      as [_|Hle]; [|rewrite length_cons, repeat_length in Hle; lia].
    change (repeat answered_row 2000) with (answered_row :: repeat answered_row 1999).
    cbn [removelast hd_error]. discriminate.
  - unfold run.
    destruct (startTest decimal_number true full_order) as [| | |st0] eqn:E;
      try discriminate E.
    injection E as <-.
    change (summary full_order) with first_seen.
    cbn [option_map].
    match goal with
    | |- context [pushRows first_seen ?rs ?st] =>
        destruct (pushRows_summary first_seen rs st) as [Hs _];
        destruct (first_run_never_stops rs st) as (Hr & Hw & Hp);
        rewrite Hs, Hr, Hw, Hp, repeat_length, Z2Nat.id by (unfold MAX_TOTAL_REQS; lia)
    end.
    reflexivity.
Qed.

End AutoStop.

(** ** The worker *)

Section LoadUnit.
Import Protocol Worker.

Lemma rows_of_app (es1 es2 : list Effect) :
  rows_of (es1 ++ es2) = (rows_of es1 ++ rows_of es2)%list.
Proof. apply flat_map_app. Qed.

Lemma dones_of_app (es1 es2 : list Effect) :
  dones_of (es1 ++ es2) = (dones_of es1 ++ dones_of es2)%list.
Proof. apply flat_map_app. Qed.

Lemma sleeps_of_app (es1 es2 : list Effect) :
  sleeps_of (es1 ++ es2) = (sleeps_of es1 ++ sleeps_of es2)%list.
Proof. apply flat_map_app. Qed.

Lemma pace_silent (interval : Z) (a : Attempt) :
  rows_of (pace interval a) = [] /\ dones_of (pace interval a) = [].
Proof. unfold pace. destruct (0 <? wait_of interval a); split; reflexivity. Qed.

Lemma yield_silent (sent : Z) :
  rows_of (yield sent) = [] /\ dones_of (yield sent) = [] /\
  total (sleeps_of (yield sent)) = 0.
Proof. unfold yield. destruct (Z.rem sent 50 =? 0); repeat split. Qed.

(** The pause after an attempt is the prescribed one. *)
Lemma pace_wait (interval : Z) (a : Attempt) :
  total (sleeps_of (pace interval a)) = nextWaitMs interval a.
Proof.
  unfold pace, nextWaitMs, wait_of.
  destruct (Z.ltb_spec 0 (interval - (looped a - start a))); cbn; lia.
Qed.

Lemma loop_cons (env : nat -> Attempt) (id interval : Z) (todo i : nat) (sent : Z) :
  stopped (env i) = false ->
  loop env id interval (S todo) i sent =
    ((PostMessage (RowEv (row_of id (env i)))
        :: pace interval (env i) ++ yield (sent + 1)
        ++ fst (loop env id interval todo (S i) (sent + 1)))%list,
     snd (loop env id interval todo (S i) (sent + 1))).
Proof.
  intros Hgo. cbn [loop]. rewrite Hgo.
  destruct (loop env id interval todo (S i) (sent + 1)); reflexivity.
Qed.

(** The total pause of a loop is the sum of the pauses prescribed for the
    turns it took, each computed from that turn alone. *)
Lemma loop_sleeps (env : nat -> Attempt) (id interval : Z) (todo i : nat) (sent : Z) :
  total (sleeps_of (fst (loop env id interval todo i sent)))
  = total (map (fun k => nextWaitMs interval (env k)) (seq i (turns env todo i))).
Proof.
  revert i sent. induction todo as [|todo IH]; intros i sent; [reflexivity|].
  cbn [turns]. destruct (stopped (env i)) eqn:Hgo.
  - cbn [loop]. rewrite Hgo. reflexivity.
  - rewrite loop_cons by assumption. cbn [fst seq map].
    change (total (?x :: ?l)) with (x + total l).
    rewrite <- IH with (sent := sent + 1).
    cbn [sleeps_of flat_map app]. fold (sleeps_of).
    change (flat_map _ ?l) with (sleeps_of l).
    rewrite !sleeps_of_app, !total_app, pace_wait.
    destruct (yield_silent (sent + 1)) as (_ & _ & ->). lia.
Qed.

(** C7.  For every rate and every attempt that starts at [s] and is over
    at [e], the worker pauses for [max(0, intervalMs - (e - s))]
    milliseconds with [intervalMs = max(1, floor(1000 / max(1, rps)))]: the
    pause is never negative, an attempt that took the interval or longer is
    followed by no pause, and the pauses of a whole loop are those of its
    turns taken one by one, with nothing carried from one turn to the
    next. *)
Theorem pacer_is_stateless (rps : Z) (a : Attempt) (env : nat -> Attempt)
        (id : Z) (todo : nat) :
  intervalMs rps = Z.max 1 (1000 / Z.max 1 rps) /\
  1 <= intervalMs rps /\
  total (sleeps_of (pace (intervalMs rps) a))
  = Z.max 0 (intervalMs rps - (looped a - start a)) /\
  0 <= total (sleeps_of (pace (intervalMs rps) a)) /\
  (intervalMs rps <= looped a - start a -> pace (intervalMs rps) a = []) /\
  (looped a - start a < intervalMs rps ->
     pace (intervalMs rps) a = [Sleep (intervalMs rps - (looped a - start a))]) /\
  total (sleeps_of (fst (loop env id (intervalMs rps) todo 0 0)))
  = total (map (fun k => Z.max 0 (intervalMs rps - (looped (env k) - start (env k))))
               (seq 0 (turns env todo 0))).
Proof.
  split; [reflexivity|]. split; [unfold intervalMs; lia|].
  split; [apply pace_wait|]. split; [rewrite pace_wait; unfold nextWaitMs; lia|].
  split; [|split].
  - intros Hslow. unfold pace, wait_of.
    destruct (Z.ltb_spec 0 (intervalMs rps - (looped a - start a))); [lia|reflexivity].
  - intros Hfast. unfold pace, wait_of.
    destruct (Z.ltb_spec 0 (intervalMs rps - (looped a - start a))); [reflexivity|lia].
  - apply loop_sleeps.
Qed.

End LoadUnit.

Section Reporting.
Import Protocol Worker.

(** A loop that never finds the stop flag set posts one row per turn, in
    order, no done event, and counts every turn. *)
Lemma loop_uncancelled (env : nat -> Attempt) (id interval : Z) (todo i : nat) (sent : Z) :
  (forall k, (i <= k < i + todo)%nat -> stopped (env k) = false) ->
  rows_of (fst (loop env id interval todo i sent))
  = map (fun k => row_of id (env k)) (seq i todo) /\
  dones_of (fst (loop env id interval todo i sent)) = [] /\
  snd (loop env id interval todo i sent) = sent + Z.of_nat todo.
Proof.
  revert i sent. induction todo as [|todo IH]; intros i sent Hgo.
  - cbn. repeat split. lia.
  - rewrite loop_cons by (apply Hgo; lia). cbn [fst snd seq map].
    destruct (IH (S i) (sent + 1)) as (Hrows & Hdones & Hsent);
      [intros k Hk; apply Hgo; lia|].
    destruct (pace_silent interval (env i)) as [Hpr Hpd].
    destruct (yield_silent (sent + 1)) as (Hyr & Hyd & _).
    split; [|split].
    + change (rows_of (?e :: ?l)) with (rows_of [e] ++ rows_of l)%list.
      rewrite !rows_of_app, Hpr, Hyr, Hrows. reflexivity.
    + change (dones_of (?e :: ?l)) with (dones_of [e] ++ dones_of l)%list.
      rewrite !dones_of_app, Hpd, Hyd, Hdones. reflexivity.
    + rewrite Hsent. lia.
Qed.

Lemma rejected_row (id : Z) (a : Attempt) (message : option string) :
  fetched a = Rejected message ->
  statusCode (row_of id a) = None /\ error (row_of id a) = true /\
  workerId (row_of id a) = id.
Proof. intros E. unfold row_of. rewrite E. repeat split. Qed.

(** C8.  A worker given [requests] requests that never sees a stop posts
    exactly one row per attempt, in order, and after them exactly one done
    event carrying [requests] as its sent count, whatever the fetches do: a
    fetch that is rejected gives a row with [error = true] and a null
    [statusCode], and the loop goes on and counts it.  So a worker whose
    requests all fail posts as many such rows as it has requests and one
    done event with that count. *)
Theorem worker_reports_every_attempt
        (env : nat -> Attempt) (id : Z) (target : string) (requests rps : Z) :
  0 <= requests ->
  (forall k, (k < Z.to_nat requests)%nat -> stopped (env k) = false) ->
  rows_of (onmessage env (Start id target requests rps))
  = map (fun k => row_of id (env k)) (seq 0 (Z.to_nat requests)) /\
  Z.of_nat (List.length (rows_of (onmessage env (Start id target requests rps))))
  = requests /\
  dones_of (onmessage env (Start id target requests rps)) = [(id, requests)] /\
  (exists did,
     onmessage env (Start id target requests rps)
     = (did ++ [PostMessage (DoneEv id requests)])%list /\
     dones_of did = [] /\
     rows_of did = rows_of (onmessage env (Start id target requests rps))) /\
  (forall k message,
     (k < Z.to_nat requests)%nat -> fetched (env k) = Rejected message ->
     statusCode (row_of id (env k)) = None /\ error (row_of id (env k)) = true) /\
  ((forall k, (k < Z.to_nat requests)%nat -> exists message, fetched (env k) = Rejected message) ->
   Forall (fun r => statusCode r = None /\ error r = true)
          (rows_of (onmessage env (Start id target requests rps)))).
Proof.
  intros Hn Hgo.
  destruct (loop_uncancelled env id (intervalMs rps) (Z.to_nat requests) 0 0)
    as (Hrows & Hdones & Hsent); [intros k Hk; apply Hgo; lia|].
  assert (Hmsg : onmessage env (Start id target requests rps)
                 = (fst (loop env id (intervalMs rps) (Z.to_nat requests) 0 0)
                    ++ [PostMessage (DoneEv id requests)])%list).
  { unfold onmessage.
    destruct (loop env id (intervalMs rps) (Z.to_nat requests) 0 0) as [did n] eqn:E.
    cbn [fst snd] in *. rewrite Hsent, Z2Nat.id by lia. reflexivity. }
  assert (Hall : rows_of (onmessage env (Start id target requests rps))
                 = map (fun k => row_of id (env k)) (seq 0 (Z.to_nat requests))).
  { rewrite Hmsg, rows_of_app, Hrows. cbn. apply app_nil_r. }
  split; [exact Hall|]. split; [|split; [|split; [|split]]].
  - rewrite Hall, length_map, length_seq. lia.
  - rewrite Hmsg, dones_of_app, Hdones. reflexivity.
  - exists (fst (loop env id (intervalMs rps) (Z.to_nat requests) 0 0)).
    split; [exact Hmsg|]. split; [exact Hdones|].
    rewrite Hall. exact Hrows.
  - intros k message _ E. destruct (rejected_row id (env k) message E) as (H1 & H2 & _).
    split; assumption.
  - intros Hfail. rewrite Hall. apply Forall_forall. intros r Hr.
    apply in_map_iff in Hr as (k & <- & Hk). apply in_seq in Hk.
    destruct (Hfail k ltac:(lia)) as [message E].
    destruct (rejected_row id (env k) message E) as (H1 & H2 & _). split; assumption.
Qed.

(** Five requests that all fail with a network error: five rows, each with
    [error = true] and a null [statusCode], then one done event with a sent
    count of 5. *)
Lemma worker_reports_every_attempt_witness :
  (0 <= 5 /\ (forall k, (k < Z.to_nat 5)%nat -> stopped (all_fail k) = false)) /\
  List.length (rows_of (onmessage all_fail (Start 1 "http://localhost/" 5 10))) = 5%nat /\
  Forall (fun r => statusCode r = None /\ error r = true)
         (rows_of (onmessage all_fail (Start 1 "http://localhost/" 5 10))) /\
  dones_of (onmessage all_fail (Start 1 "http://localhost/" 5 10)) = [(1, 5)].
Proof.
  assert (Hgo : forall k, (k < Z.to_nat 5)%nat -> stopped (all_fail k) = false)
    by (intros k _; reflexivity).
  split; [split; [lia|exact Hgo]|].
  destruct (worker_reports_every_attempt all_fail 1 "http://localhost/" 5 10
              ltac:(lia) Hgo) as (_ & _ & Hdone & _ & _ & Hfail).
  split; [reflexivity|]. split; [|exact Hdone].
  apply Hfail. intros k _. eexists. reflexivity.
Defined.

End Reporting.

(** ** The CSV export *)

Section Csv.
Import Protocol Page CsvReader.
Local Open Scope string_scope.

Lemma append_empty_r (s : string) : s ++ EmptyString = s.
Proof. induction s as [|ch s IH]; cbn; [reflexivity|now rewrite IH]. Qed.

Lemma append_assoc (s1 s2 s3 : string) : (s1 ++ s2) ++ s3 = s1 ++ (s2 ++ s3).
Proof. induction s1 as [|ch s1 IH]; cbn; [reflexivity|now rewrite IH]. Qed.

Lemma snoc_append (fld : string) (ch : ascii) (s : string) :
  snoc fld ch ++ s = fld ++ String ch s.
Proof. unfold snoc. now rewrite append_assoc. Qed.

(** *** The scanner on the shapes the exporter writes *)

Lemma scan_comma m fld rec recs k :
  unquoted m ->
  scan m fld rec recs (String JS.comma k) = scan FieldStart EmptyString (rec ++ [fld])%list recs k.
Proof. intros [-> | ->]; reflexivity. Qed.

Lemma scan_line_feed m fld rec recs k :
  unquoted m ->
  scan m fld rec recs (String JS.LF k)
  = scan FieldStart EmptyString [] (recs ++ [rec ++ [fld]])%list k.
Proof. intros [-> | ->]; reflexivity. Qed.

Lemma scan_end m fld rec recs :
  unquoted m -> scan m fld rec recs EmptyString = Some (recs ++ [rec ++ [fld]])%list.
Proof. intros [-> | ->]; reflexivity. Qed.

(** A plain text is taken as it is into the field being read. *)
Lemma scan_plain f : forall m fld rec recs k,
  plain f = true -> unquoted m ->
  exists m', unquoted m' /\
    scan m fld rec recs (f ++ k) = scan m' (fld ++ f) rec recs k.
Proof.
  induction f as [|ch f IH]; intros m fld rec recs k Hplain Hm.
  - exists m. split; [assumption|]. now rewrite append_empty_r.
  - cbn [plain] in Hplain. apply andb_prop in Hplain as [Hch Hf].
    unfold plain_char in Hch.
    apply andb_prop in Hch as [Hch Hq]. apply andb_prop in Hch as [Hc Hl].
    apply negb_true_iff in Hc, Hl, Hq.
    destruct (IH Bare (snoc fld ch) rec recs k Hf (or_intror eq_refl)) as (m' & Hm' & E).
    exists m'. split; [assumption|].
    rewrite snoc_append in E. rewrite <- E.
    cbn [append scan]. rewrite Hc, Hl, Hq. now destruct Hm as [-> | ->].
Qed.

(** A quoted text is read back with its quotes halved. *)
Lemma scan_quoted s : forall fld rec recs k,
  scan Quoted fld rec recs (JS.double_quotes s ++ String JS.dquote k)
  = scan QuoteSeen (fld ++ s) rec recs k.
Proof.
  induction s as [|ch s IH]; intros fld rec recs k.
  - cbn. now rewrite append_empty_r.
  - cbn [JS.double_quotes]. destruct (Ascii.eqb ch JS.dquote) eqn:E.
    + apply Ascii.eqb_eq in E. subst ch. cbn [append scan].
      rewrite Ascii.eqb_refl. rewrite IH, snoc_append. reflexivity.
    + cbn [append scan]. rewrite E, IH, snoc_append. reflexivity.
Qed.

Lemma scan_quote_closed_comma fld rec recs k :
  scan QuoteSeen fld rec recs (String JS.comma k)
  = scan FieldStart EmptyString (rec ++ [fld])%list recs k.
Proof. reflexivity. Qed.

(** *** The cells the exporter writes without quotes are plain *)

Lemma plain_uint (d : Decimal.uint) : plain (NilEmpty.string_of_uint d) = true.
Proof. induction d; cbn; auto. Qed.

Lemma plain_toString (z : Z) : plain (JS.toString z) = true.
Proof.
  unfold JS.toString. destruct z as [|p|p]; [reflexivity| |].
  - cbn. destruct (Pos.to_uint p); try reflexivity; apply (plain_uint (_ _)).
  - cbn. destruct (Pos.to_uint p); try reflexivity; apply (plain_uint (_ _)).
Qed.

Lemma plain_number_or_empty (z : Z) : plain (number_or_empty z) = true.
Proof. unfold number_or_empty. destruct (z =? 0)%Z; [reflexivity|apply plain_toString]. Qed.

Lemma plain_statusCode_cell (r : Row) : plain (statusCode_cell r) = true.
Proof.
  unfold statusCode_cell. destruct (statusCode r); [apply plain_number_or_empty|reflexivity].
Qed.

Lemma plain_error_cell (r : Row) : plain (error_cell r) = true.
Proof. unfold error_cell. destruct (error r); reflexivity. Qed.

(** *** One line, then all of them *)

Lemma csv_line_then (r : Row) (k : string) :
  csv_line r ++ k =
  timestamp r ++ String JS.comma
    (JS.toString (workerId r) ++ String JS.comma
       (statusCode_cell r ++ String JS.comma
          (number_or_empty (timeMs r) ++ String JS.comma
             (String JS.dquote
                (JS.double_quotes (snippet r)
                 ++ String JS.dquote (String JS.comma (error_cell r ++ k))))))).
Proof.
  unfold csv_line. rewrite !append_assoc. cbn [append]. rewrite !append_assoc.
  cbn [append]. reflexivity.
Qed.

(** Read one plain cell and the comma after it. *)
Ltac read_plain_cell H :=
  match goal with
  | |- context [scan ?m ?fld ?rec ?recs (?f ++ String JS.comma ?k)] =>
      let m' := fresh "m" in
      let Hm' := fresh "Hm" in
      let E := fresh "E" in
      destruct (scan_plain f m fld rec recs (String JS.comma k) H
                  (or_introl eq_refl)) as (m' & Hm' & E);
      rewrite E, (scan_comma m') by assumption; clear E m' Hm'
  end.

(** Reading the line of a row leaves its first five cells in the record
    and its last cell in the field being read. *)
Lemma scan_csv_line (r : Row) (recs : list (list string)) (k : string) :
  plain (timestamp r) = true ->
  exists m, unquoted m /\
    scan FieldStart EmptyString [] recs (csv_line r ++ k)
    = scan m (error_cell r) (firstn 5 (cells r)) recs k.
Proof.
  intros Hts. rewrite csv_line_then.
  read_plain_cell Hts.
  read_plain_cell (plain_toString (workerId r)).
  read_plain_cell (plain_statusCode_cell r).
  read_plain_cell (plain_number_or_empty (timeMs r)).
  change (scan FieldStart EmptyString ?rec ?recs (String JS.dquote ?k'))
    with (scan Quoted EmptyString rec recs k').
  rewrite scan_quoted, scan_quote_closed_comma.
  match goal with
  | |- context [scan ?m0 ?fld ?rec ?recs' (error_cell r ++ k)] =>
      destruct (scan_plain (error_cell r) m0 fld rec recs' k
                  (plain_error_cell r) (or_introl eq_refl)) as (m & Hm & E)
  end.
  exists m. split; [assumption|]. rewrite E. reflexivity.
Qed.

Lemma join_following (first : string) (lines : list string) :
  JS.join (String JS.LF EmptyString) (first :: lines) = first ++ following lines.
Proof.
  unfold JS.join. revert first. induction lines as [|l more IH]; intros first.
  - cbn. now rewrite append_empty_r.
  - change (String.concat (String JS.LF EmptyString) (first :: l :: more))
      with (first ++ String JS.LF EmptyString
                  ++ String.concat (String JS.LF EmptyString) (l :: more)).
    rewrite IH. reflexivity.
Qed.

Lemma scan_following (rs : list Row) : forall m fld rec recs,
  unquoted m ->
  Forall (fun r => plain (timestamp r) = true) rs ->
  scan m fld rec recs (following (map csv_line rs))
  = Some (recs ++ (rec ++ [fld]) :: map cells rs)%list.
Proof.
  induction rs as [|r rs IH]; intros m fld rec recs Hm Hrs.
  - cbn [map following]. now apply scan_end.
  - inversion Hrs as [|? ? Hr Hrs']; subst.
    cbn [map following]. rewrite scan_line_feed by assumption.
    destruct (scan_csv_line r (recs ++ [rec ++ [fld]])%list
                (following (map csv_line rs)) Hr) as (m' & Hm' & E).
    rewrite E, IH by assumption.
    rewrite <- app_assoc. reflexivity.
Qed.

(** The records of an export: the header, then the cells of the rows,
    oldest first. *)
Lemma records_exportCSV (st : Home) :
  Forall (fun r => plain (timestamp r) = true) (rows st) ->
  records (exportCSV st) = Some (header_cells :: map cells (rev (rows st))).
Proof.
  intros Hrows. unfold exportCSV, records. rewrite join_following.
  assert (Hrev : Forall (fun r => plain (timestamp r) = true) (rev (rows st)))
    by (apply Forall_rev; assumption).
  change (header ++ following (map csv_line (rev (rows st))))
    with ("timestamp" ++ String JS.comma
          ("workerId" ++ String JS.comma
           ("statusCode" ++ String JS.comma
            ("timeMs" ++ String JS.comma
             ("snippet" ++ String JS.comma
              ("error" ++ following (map csv_line (rev (rows st))))))))).
  do 5 read_plain_cell (eq_refl true).
  match goal with
  | |- context [scan ?m0 ?fld ?rec ?recs' ("error" ++ ?k)] =>
      destruct (scan_plain "error" m0 fld rec recs' k eq_refl (or_introl eq_refl))
        as (m6 & Hm6 & E6)
  end.
  rewrite E6.
  rewrite scan_following by assumption. reflexivity.
Qed.

(** *** From cells to rows *)

Lemma toString_not_empty (z : Z) : JS.toString z <> EmptyString.
Proof.
  unfold JS.toString. destruct z as [|p|p]; cbn; try discriminate.
  destruct (Pos.to_uint p); discriminate.
Qed.

Lemma read_int_toString (z : Z) : read_int (JS.toString z) = Some z.
Proof.
  unfold read_int, JS.toString. rewrite NilZero.isi.
  - cbn [option_map]. now rewrite DecimalZ.of_to.
  - destruct z as [|p|p]; cbn; try discriminate.
    intros [= H]. exact (DecimalPos.Unsigned.to_uint_nonnil p H).
  - destruct z as [|p|p]; cbn; try discriminate.
    intros [= H]. exact (DecimalPos.Unsigned.to_uint_nonnil p H).
Qed.

Lemma read_time_cell (z : Z) : read_time (number_or_empty z) = Some z.
Proof.
  unfold read_time, number_or_empty. destruct (Z.eqb_spec z 0) as [->|Hz].
  - reflexivity.
  - destruct (String.eqb_spec (JS.toString z) EmptyString) as [E|_].
    + now elim (toString_not_empty z).
    + apply read_int_toString.
Qed.

Lemma read_status_cell (r : Row) :
  statusCode r <> Some 0%Z -> read_status (statusCode_cell r) = Some (statusCode r).
Proof.
  intros Hz. unfold read_status, statusCode_cell, number_or_empty.
  destruct (statusCode r) as [n|]; [|reflexivity].
  destruct (Z.eqb_spec n 0) as [->|Hn]; [now elim Hz|].
  destruct (String.eqb_spec (JS.toString n) EmptyString) as [E|_].
  - now elim (toString_not_empty n).
  - now rewrite read_int_toString.
Qed.

Lemma read_flag_cell (r : Row) : read_flag (error_cell r) = Some (error r).
Proof. unfold error_cell. destruct (error r); reflexivity. Qed.

Lemma read_row_cells (r : Row) :
  statusCode r <> Some 0%Z -> read_row (cells r) = Some r.
Proof.
  intros Hz. unfold read_row, cells.
  rewrite read_int_toString, read_status_cell, read_time_cell, read_flag_cell
    by assumption.
  destruct r; reflexivity.
Qed.

Lemma read_rows_cells (rs : list Row) :
  Forall (fun r => statusCode r <> Some 0%Z) rs -> read_rows (map cells rs) = Some rs.
Proof.
  induction 1 as [|r rs Hr _ IH]; [reflexivity|].
  cbn [map read_rows]. now rewrite read_row_cells, IH.
Qed.

Lemma exportable_spec (r : Row) :
  exportable r = true -> plain (timestamp r) = true /\ statusCode r <> Some 0%Z.
Proof.
  unfold exportable. intros H. apply andb_prop in H as [Hts Hsc].
  split; [assumption|]. intros E. rewrite E in Hsc. discriminate.
Qed.

Lemma read_exportCSV (st : Home) :
  Forall (fun r => exportable r = true) (rows st) ->
  read (exportCSV st) = Some (header_cells, rev (rows st)).
Proof.
  intros Hrows. unfold read. rewrite records_exportCSV.
  - rewrite read_rows_cells; [reflexivity|].
    apply Forall_rev. eapply Forall_impl; [|exact Hrows].
    intros r Hr. now apply exportable_spec.
  - eapply Forall_impl; [|exact Hrows]. intros r Hr. now apply exportable_spec.
Qed.

(** X19.  The export loses nothing: two buffers of exportable rows with the
    same export hold the same rows in the same order. *)
Lemma exportCSV_injective (st1 st2 : Home) :
  Forall (fun r => exportable r = true) (rows st1) ->
  Forall (fun r => exportable r = true) (rows st2) ->
  exportCSV st1 = exportCSV st2 -> rows st1 = rows st2.
Proof.
  intros H1 H2 E.
  pose proof (read_exportCSV st1 H1) as R1. rewrite E, (read_exportCSV st2 H2) in R1.
  injection R1 as R1. rewrite <- (rev_involutive (rows st1)), <- R1.
  apply rev_involutive.
Qed.

(** The rows a worker posts are exportable when its timestamps are plain
    and no response has a status of 0. *)
Lemma row_of_exportable (id : Z) (a : Worker.Attempt) :
  plain (Worker.iso a) = true ->
  (forall status text, Worker.fetched a = Worker.Response status text -> status <> 0%Z) ->
  exportable (Worker.row_of id a) = true.
Proof.
  intros Hts Hstatus. unfold exportable, Worker.row_of.
  destruct (Worker.fetched a) as [status text|message] eqn:E; cbn; rewrite Hts; cbn.
  - specialize (Hstatus status text eq_refl).
    destruct (Z.eqb_spec status 0); [contradiction|reflexivity].
  - reflexivity.
Qed.

(** C2, as the code has it.  The export of a buffer is the header line
    [timestamp,workerId,statusCode,timeMs,snippet,error] followed by one
    record per buffered row, oldest first, the snippet between double
    quotes with every quote in it doubled and the error as 0 or 1.  When
    every buffered row has a timestamp without comma, quote or line feed
    and a status other than the number 0, reading the text back gives the
    header cells and as many records as there are rows, whose fields are
    those of the rows, oldest first. *)
Theorem exportCSV_round_trip (st : Home) :
  Forall (fun r => exportable r = true) (rows st) ->
  exportCSV st = header ++ following (map csv_line (rev (rows st))) /\
  records (exportCSV st) = Some (header_cells :: map cells (rev (rows st))) /\
  read (exportCSV st) = Some (header_cells, rev (rows st)) /\
  (forall body, read (exportCSV st) = Some (header_cells, body) ->
     List.length body = List.length (rows st)).
Proof.
  intros Hrows.
  assert (Hplain : Forall (fun r => plain (timestamp r) = true) (rows st)).
  { eapply Forall_impl; [|exact Hrows]. intros r Hr. now apply exportable_spec. }
  pose proof (read_exportCSV st Hrows) as Hread.
  split; [apply join_following|]. split; [now apply records_exportCSV|].
  split; [exact Hread|].
  intros body E. rewrite Hread in E. injection E as <-. apply length_rev.
Qed.

Lemma exportCSV_round_trip_witness :
  Forall (fun r => exportable r = true) (rows (holding [tricky_row; failed_row; answered_row])) /\
  read (exportCSV (holding [tricky_row; failed_row; answered_row]))
  = Some (header_cells, [answered_row; failed_row; tricky_row]).
Proof.
  assert (H : Forall (fun r => exportable r = true)
                     (rows (holding [tricky_row; failed_row; answered_row])))
    by (repeat constructor).
  split; [exact H|].
  destruct (exportCSV_round_trip (holding [tricky_row; failed_row; answered_row]) H)
    as (_ & _ & Hread & _).
  exact Hread.
Defined.

(** The claim C2 fails on the code.  The header of an export names the
    second column [workerId], not [unitId]; and a row with a status of 0 is
    exported like the same row without a status, so that no reader can
    give both back. *)
Lemma exportCSV_counterexample :
  (String.prefix "timestamp,workerId,statusCode,timeMs,snippet,error"
                 (exportCSV (holding [answered_row])) = true /\
   String.prefix specified_header (exportCSV (holding [answered_row])) = false /\
   read (exportCSV (holding [answered_row]))
   = Some (["timestamp"; "workerId"; "statusCode"; "timeMs"; "snippet"; "error"],
           [answered_row])) /\
  (exportCSV (holding [status_zero_row]) = exportCSV (holding [status_null_row]) /\
   rows (holding [status_zero_row]) <> rows (holding [status_null_row])).
Proof.
  split; [repeat split; vm_compute; reflexivity|].
  split; [vm_compute; reflexivity|].
  cbn [holding rows]. intros H. discriminate H.
Qed.

End Csv.

(** * Further properties of the page *)

Section Orchestrator.
Import Protocol Page.
Variable StringToNumber : string -> JS.number.

(** The three sanitized values are within their ranges. *)
Lemma sanitized_ranges (st : Home) :
  1 <= c_of StringToNumber st <= MAX_CONCURRENCY /\
  1 <= trs_of StringToNumber st <= MAX_TOTAL_REQS /\
  1 <= rps_of StringToNumber st <= MAX_REQS_PER_SEC.
Proof.
  destruct (sanitize_clamps_into StringToNumber MAX_CONCURRENCY (concurrency st))
    as (Hc & _); [unfold MAX_CONCURRENCY; lia|].
  destruct (sanitize_clamps_into StringToNumber MAX_TOTAL_REQS (totalRequests st))
    as (Ht & _); [unfold MAX_TOTAL_REQS; lia|].
  destruct (sanitize_clamps_into StringToNumber MAX_REQS_PER_SEC (targetRps st))
    as (Hr & _); [unfold MAX_REQS_PER_SEC; lia|].
  repeat split; first [apply Hc | apply Ht | apply Hr].
Qed.

(** What a start that goes through makes of the page. *)
Lemma started_inv (confirmed : bool) (st st' : Home) :
  startTest StringToNumber confirmed st = Started st' ->
  url st <> EmptyString /\ running st = false /\ confirmed = true /\
  st' = {| url := url st;
           concurrency := concurrency st;
           totalRequests := totalRequests st;
           targetRps := targetRps st;
           running := true;
           rows := [];
           summary := {| sent := 0; errors := 0 |};
           workersRef :=
             map fst (spawn (url st) (trs_of StringToNumber st)
                            (c_of StringToNumber st) (rps_of StringToNumber st));
           posted :=
             (posted st ++ spawn (url st) (trs_of StringToNumber st)
                                 (c_of StringToNumber st) (rps_of StringToNumber st))%list |}.
Proof.
  unfold startTest.
  destruct (String.eqb_spec (url st) EmptyString) as [|Hurl]; [discriminate|].
  destruct (running st); [discriminate|].
  destruct confirmed; cbn; [|discriminate].
  intros [= <-]. repeat split. assumption.
Qed.

Lemma assignments_total (trs c : Z) :
  1 <= trs -> 1 <= c -> total (assignments trs c) = trs.
Proof.
  intros Ht Hc. rewrite assignments_shape by lia.
  pose proof (Z.mod_pos_bound trs c ltac:(lia)) as Hr.
  rewrite total_app, !total_repeat, !Z2Nat.id by lia.
  pose proof (Z.div_mod trs c ltac:(lia)). nia.
Qed.

Lemma assigned_nonneg (trs c i : Z) : 1 <= trs -> 1 <= c -> 0 <= assigned trs c i.
Proof.
  intros Ht Hc. unfold assigned, requestsPerWorker.
  pose proof (Z.div_pos trs c ltac:(lia) ltac:(lia)).
  destruct (i <? remainder trs c); lia.
Qed.

Lemma spawn_handles (u : string) (trs c rps : Z) :
  map fst (spawn u trs c rps) = map Z.of_nat (seq 1 (Z.to_nat c)).
Proof.
  unfold spawn, indices. rewrite !map_map. cbn [fst].
  rewrite <- seq_shift, map_map. apply map_ext. intros k. lia.
Qed.

Lemma spawn_requests (u : string) (trs c rps : Z) :
  map (fun wm => requests_of (snd wm)) (spawn u trs c rps) = assignments trs c.
Proof. unfold spawn, assignments. rewrite map_map. reflexivity. Qed.

Lemma NoDup_of_nat (l : list nat) : NoDup l -> NoDup (map Z.of_nat l).
Proof.
  induction 1 as [|k l Hk _ IH]; cbn; constructor; [|assumption].
  intros Hin. apply in_map_iff in Hin as (j & E & Hj).
  apply Nat2Z.inj in E. now subst j.
Qed.

(** X1.  Stopping twice is stopping once: the second [stopTest] finds no
    worker left, posts nothing and leaves the page as the first one left it.
    A stop posts one stop message to each live worker, in order, empties
    the list of workers and keeps the buffer, the counters and the
    configuration. *)
Theorem stopTest_idempotent (st : Home) :
  stopTest (stopTest st) = stopTest st /\
  posted (stopTest st) = (posted st ++ map (fun w => (w, Stop)) (workersRef st))%list /\
  workersRef (stopTest st) = [] /\
  running (stopTest st) = false /\
  rows (stopTest st) = rows st /\
  summary (stopTest st) = summary st /\
  (url (stopTest st) = url st /\
   concurrency (stopTest st) = concurrency st /\
   totalRequests (stopTest st) = totalRequests st /\
   targetRps (stopTest st) = targetRps st) /\
  (workersRef st = [] -> posted (stopTest st) = posted st).
Proof.
  split; [|repeat split].
  - unfold stopTest. cbn. now rewrite app_nil_r.
  - intros E. cbn. rewrite E. apply app_nil_r.
Qed.

(** X2.  Once a start has gone through, a second start is ignored, whatever
    the operator answers, until the run is stopped: the page is marked as
    running, with an empty buffer and zeroed counters, and keeps its target
    and its configuration. *)
Theorem second_start_ignored (confirmed again : bool) (st st' : Home) :
  startTest StringToNumber confirmed st = Started st' ->
  startTest StringToNumber again st' = Ignored /\
  running st' = true /\ rows st' = [] /\
  summary st' = {| sent := 0; errors := 0 |} /\
  url st' = url st /\
  (exists st'', startTest StringToNumber true (stopTest st') = Started st'').
Proof.
  intros H. apply started_inv in H as (Hurl & _ & _ & ->).
  split; [|repeat split].
  - unfold startTest. cbn [url running].
    destruct (String.eqb_spec (url st) EmptyString); [contradiction|reflexivity].
  - unfold startTest, stopTest. cbn [url running].
    destruct (String.eqb_spec (url st) EmptyString); [contradiction|].
    cbn. eexists. reflexivity.
Qed.

(** X3.  For integers, a total and a worker count of at least 1 and a rate
    between 1 and 1000 (what the clamp gives on integer-valued fields), the
    loop of [startTest] starts one worker per unit of the worker count,
    named 1, 2, ... in order, without repetition.  Each is sent exactly one
    start message, with its own name, the target, a request count that is
    not negative and the common rate, which lies between 1 and 1000; the
    request counts add up to the total. *)
Theorem started_run_messages (u : string) (trs c rps : Z) :
  1 <= trs -> 1 <= c -> 1 <= rps <= 1000 ->
  map fst (spawn u trs c rps) = map Z.of_nat (seq 1 (Z.to_nat c)) /\
  NoDup (map fst (spawn u trs c rps)) /\
  Forall (fun wm =>
            exists n, snd wm = Start (fst wm) u n (perWorkerRps rps c) /\ 0 <= n)
         (spawn u trs c rps) /\
  1 <= perWorkerRps rps c <= 1000 /\
  total (map (fun wm => requests_of (snd wm)) (spawn u trs c rps)) = trs.
Proof.
  intros Ht Hc Hr.
  split; [apply spawn_handles|]. split; [|split; [|split]].
  - rewrite spawn_handles. apply NoDup_of_nat, seq_NoDup.
  - unfold spawn. apply Forall_map, Forall_forall. intros i _. cbn [fst snd].
    eexists. split; [reflexivity|]. apply assigned_nonneg; lia.
  - unfold perWorkerRps. split; [lia|].
    pose proof (Z.div_le_upper_bound rps c 1000 ltac:(lia)). nia.
  - rewrite spawn_requests. apply assignments_total; lia.
Qed.

End Orchestrator.

Lemma second_start_ignored_witness :
  Page.startTest decimal_number true small_order
  = Page.Started small_started /\
  Page.startTest decimal_number true small_started
  = Page.Ignored.
Proof.
  assert (H : Page.startTest decimal_number true small_order
              = Page.Started small_started)
    by reflexivity.
  split; [exact H|].
  exact (proj1 (second_start_ignored decimal_number true true small_order _ H)).
Defined.

Lemma started_run_messages_witness :
  (1 <= 10 /\ 1 <= 3 /\ 1 <= 5 <= 1000) /\
  map fst (Page.spawn "http://localhost/" 10 3 5) = [1; 2; 3] /\
  total (map (fun wm => requests_of (snd wm)) (Page.spawn "http://localhost/" 10 3 5)) = 10.
Proof.
  split; [lia|].
  destruct (started_run_messages "http://localhost/" 10 3 5
              ltac:(lia) ltac:(lia) ltac:(lia)) as (Hids & _ & _ & _ & Htotal).
  split; [rewrite Hids; reflexivity | exact Htotal].
Defined.

(** ** Edges of the partition and of the estimate *)

Section PartitionEdges.
Import Page.

(** X4.  With more workers than requests, the first workers, as many as
    there are requests, get one request each and all the others get none;
    when the number of workers divides the total, all get the same count. *)
Theorem partition_edges (trs c : Z) :
  1 <= trs -> 1 <= c ->
  (trs < c ->
     assignments trs c = repeat 1 (Z.to_nat trs) ++ repeat 0 (Z.to_nat (c - trs))) /\
  (trs mod c = 0 -> assignments trs c = repeat (trs / c) (Z.to_nat c)) /\
  (forall n, In n (assignments trs c) -> 0 <= n <= trs).
Proof.
  intros Ht Hc. pose proof (assignments_shape trs c ltac:(lia) ltac:(lia)) as Hshape.
  pose proof (Z.mod_pos_bound trs c ltac:(lia)) as Hr.
  pose proof (Z.div_mod trs c ltac:(lia)) as Hdm.
  pose proof (Z.div_pos trs c ltac:(lia) ltac:(lia)) as Hq.
  split; [|split].
  - intros Hlt. rewrite Hshape.
    rewrite (Z.div_small trs c), (Z.mod_small trs c) by lia. reflexivity.
  - intros Hdiv. rewrite Hshape, Hdiv, Z.sub_0_r. reflexivity.
  - intros n Hn. rewrite Hshape in Hn. apply in_app_or in Hn.
    destruct Hn as [Hn|Hn].
    + assert (Hpos : trs mod c <> 0) by (intros E; rewrite E in Hn; exact Hn).
      apply repeat_spec in Hn. subst n. nia.
    + apply repeat_spec in Hn. subst n. nia.
Qed.

Lemma partition_edges_witness :
  (1 <= 3 /\ 1 <= 5) /\ assignments 3 5 = [1; 1; 1; 0; 0].
Proof.
  split; [lia|].
  destruct (partition_edges 3 5 ltac:(lia) ltac:(lia)) as (H & _).
  rewrite (H ltac:(lia)). reflexivity.
Defined.

(** X5.  The estimated aggregate rate misses the target by less than one
    request per worker when there are at most as many workers as the
    target rate, and is the target itself when the workers divide it; with
    more workers than the target rate it is the number of workers, above
    the target. *)
Theorem estimate_against_target (rps c : Z) :
  1 <= rps -> 1 <= c ->
  (c <= rps -> rps - c < estimatedTotalRps rps c <= rps) /\
  (rps mod c = 0 -> estimatedTotalRps rps c = rps) /\
  (rps < c -> estimatedTotalRps rps c = c /\ rps < estimatedTotalRps rps c).
Proof.
  intros Hr Hc. unfold estimatedTotalRps, perWorkerRps.
  pose proof (Z.mod_pos_bound rps c ltac:(lia)) as Hm.
  pose proof (Z.div_mod rps c ltac:(lia)) as Hdm.
  pose proof (Z.div_pos rps c ltac:(lia) ltac:(lia)) as Hq.
  split; [|split].
  - intros Hle.
    assert (1 <= rps / c) by (apply Z.div_le_lower_bound; lia).
    rewrite Z.max_r by lia. nia.
  - intros Hdiv.
    assert (1 <= rps / c) by nia.
    rewrite Z.max_r by lia. nia.
  - intros Hlt. rewrite (Z.div_small rps c) by lia.
    change (Z.max 1 0) with 1. lia.
Qed.

Lemma estimate_against_target_witness :
  (1 <= 5 /\ 1 <= 8) /\ estimatedTotalRps 5 8 = 8.
Proof.
  split; [lia|].
  destruct (estimate_against_target 5 8 ltac:(lia) ltac:(lia)) as (_ & _ & H).
  exact (proj1 (H ltac:(lia))).
Defined.

End PartitionEdges.

(** ** Whole runs on the page *)

Section Runs.
Import Protocol Page.
Variable StringToNumber : string -> JS.number.

(** The page pushes the payloads of the row and error events and ignores
    every other message. *)
Lemma handle_pushes_payloads (seen : Summary) (msgs : list FromWorker) (st : Home) :
  handle seen msgs st = pushRows seen (payloads msgs) st.
Proof.
  revert st. induction msgs as [|m msgs IH]; intros st; [reflexivity|].
  change (handle seen (m :: msgs) st) with (handle seen msgs (onWorkerMessage seen m st)).
  rewrite IH. destruct m; reflexivity.
Qed.

(** A handler that reads a count below the cap never stops the run. *)
Lemma pushRows_quiet (seen : Summary) (rs : list Row) (st : Home) :
  sent seen + 1 < MAX_TOTAL_REQS ->
  running (pushRows seen rs st) = running st /\
  workersRef (pushRows seen rs st) = workersRef st /\
  posted (pushRows seen rs st) = posted st.
Proof.
  intros Hlow. revert st. induction rs as [|r rs IH]; intros st; [repeat split|].
  rewrite pushRows_cons.
  destruct (IH (pushRow seen r st)) as (-> & -> & ->).
  now apply pushRow_goes_on.
Qed.

(** A handler that reads a count at the cap stops the run at the first row,
    and the later rows find no worker left to stop. *)
Lemma pushRows_stopping (seen : Summary) (r : Row) (rs : list Row) (st : Home) :
  MAX_TOTAL_REQS <= sent seen + 1 ->
  running (pushRows seen (r :: rs) st) = false /\
  workersRef (pushRows seen (r :: rs) st) = [] /\
  posted (pushRows seen (r :: rs) st)
  = (posted st ++ map (fun w => (w, Stop)) (workersRef st))%list.
Proof.
  intros Hcap. revert r st. induction rs as [|r' rs IH]; intros r st.
  - now apply pushRow_stops.
  - rewrite pushRows_cons.
    destruct (IH r' (pushRow seen r st)) as (-> & -> & ->).
    destruct (pushRow_stops seen r st Hcap) as (_ & -> & ->).
    repeat split. apply app_nil_r.
Qed.

Lemma consistent_pushRow (seen : Summary) (r : Row) (st : Home) :
  consistent st -> consistent (pushRow seen r st).
Proof.
  unfold consistent. intros (Herr & Hlen).
  rewrite pushRow_rows, pushRow_summary. cbn [count sent errors].
  rewrite push_firstn by lia. rewrite length_firstn. cbn [List.length].
  split; [destruct (error r); lia|lia].
Qed.

Lemma consistent_pushRows (seen : Summary) (rs : list Row) (st : Home) :
  consistent st -> consistent (pushRows seen rs st).
Proof.
  revert st. induction rs as [|r rs IH]; intros st Hst; [exact Hst|].
  rewrite pushRows_cons. apply IH. now apply consistent_pushRow.
Qed.

Lemma run_unfold (st : Home) (rs : list Row) :
  url st <> EmptyString -> running st = false ->
  exists st0,
    startTest StringToNumber true st = Started st0 /\
    run StringToNumber st rs = Some (pushRows (summary st) rs st0).
Proof.
  intros Hurl Hrun.
  destruct (proj2 (started_iff StringToNumber true st) (conj Hurl (conj Hrun eq_refl)))
    as [st0 E].
  exists st0. split; [exact E|]. unfold run. now rewrite E.
Qed.

(** X6.  The buffer and the counters of the page stay in step: from a page
    where the error count is between 0 and the sent count and the buffer
    holds [min(sent, 2000)] rows, this is still so after any messages of the
    workers have been handled, after a stop and after the mount effect; and
    it is so on every page a start produces. *)
Theorem page_stays_consistent (seen : Summary) (msgs : list FromWorker) (st : Home) :
  consistent st ->
  consistent (handle seen msgs st) /\
  consistent (stopTest st) /\
  consistent (enforceCaps StringToNumber st) /\
  (forall confirmed st', startTest StringToNumber confirmed st = Started st' ->
     consistent st').
Proof.
  intros Hst. split; [|split; [|split]].
  - rewrite handle_pushes_payloads. now apply consistent_pushRows.
  - exact Hst.
  - exact Hst.
  - intros confirmed st' H. apply started_inv in H as (_ & _ & _ & ->).
    unfold consistent. cbn. lia.
Qed.

(** X7.  A run started on a page with a target and no run under way counts
    from zero, whatever the page showed before: after the rows [rs] have
    come in, the sent count is their number, the error count the number of
    those marked as errors, and the buffer holds the 2000 most recent of
    them, the most recent first, and nothing of an earlier run. *)
Theorem run_counts_from_zero (st : Home) (rs : list Row) :
  url st <> EmptyString -> running st = false ->
  exists st',
    run StringToNumber st rs = Some st' /\
    sent (summary st') = Z.of_nat (List.length rs) /\
    errors (summary st') = Z.of_nat (List.length (filter error rs)) /\
    rows st' = firstn 2000 (rev rs) /\
    url st' = url st.
Proof.
  intros Hurl Hrun. destruct (run_unfold st rs Hurl Hrun) as (st0 & E & ->).
  apply started_inv in E as (_ & _ & _ & ->).
  eexists. split; [reflexivity|].
  match goal with
  | |- context [pushRows ?seen rs ?st0] =>
      destruct (pushRows_summary seen rs st0) as [Hs He];
      pose proof (pushRows_rows seen rs st0) as Hrows
  end.
  cbn [rows summary sent errors List.length] in Hs, He, Hrows.
  rewrite Hs, He, Hrows by lia. rewrite app_nil_r.
  split; [lia|]. split; [lia|]. split; [reflexivity|].
  clear. induction rs as [|r rs IH] using rev_ind; [reflexivity|].
  rewrite pushRows_snoc. unfold pushRow.
  destruct (MAX_TOTAL_REQS <=? _); cbn [stopTest url]; exact IH.
Qed.

(** X8.  While the handlers read a sent count below the cap, as they do
    throughout the first run of a page, nothing the workers report ends the
    run: after any messages, done events included, the page is still
    marked as running with the same workers, no stop has been posted, and a
    new start is ignored; it takes a stop to start again. *)
Theorem run_never_ends_by_itself (again : bool) (st st' : Home) (msgs : list FromWorker) :
  startTest StringToNumber true st = Started st' ->
  sent (summary st) + 1 < MAX_TOTAL_REQS ->
  running (handle (summary st) msgs st') = true /\
  workersRef (handle (summary st) msgs st') = workersRef st' /\
  posted (handle (summary st) msgs st') = posted st' /\
  startTest StringToNumber again (handle (summary st) msgs st') = Ignored /\
  (exists st'', startTest StringToNumber true (stopTest (handle (summary st) msgs st'))
                = Started st'').
Proof.
  intros H Hlow. rewrite handle_pushes_payloads.
  destruct (pushRows_quiet (summary st) (payloads msgs) st' Hlow) as (Hr & Hw & Hp).
  apply started_inv in H as (Hurl & _ & _ & Hst').
  assert (Hurl' : url (pushRows (summary st) (payloads msgs) st') = url st).
  { rewrite Hst'. clear. induction (payloads msgs) as [|r rs IH] using rev_ind;
      [reflexivity|].
    rewrite pushRows_snoc. unfold pushRow.
    destruct (MAX_TOTAL_REQS <=? _); cbn [stopTest url]; exact IH. }
  assert (Hrun : running st' = true) by (rewrite Hst'; reflexivity).
  rewrite Hr, Hw, Hp, Hrun. repeat split.
  - unfold startTest. rewrite Hurl', Hr, Hrun.
    destruct (String.eqb_spec (url st) EmptyString); [contradiction|reflexivity].
  - apply (started_iff StringToNumber). cbn [stopTest url running].
    rewrite Hurl'. repeat split. assumption.
Qed.

(** X9.  A run started on a page whose sent count is at 99999 or more, as
    it is after a run that reached the cap, is stopped by its own first
    row: the handlers read the old count, so the first row that comes in
    posts a stop to every worker just started, empties the list of workers
    and clears the running mark, while the new count is 1; the later rows
    are counted all the same. *)
Theorem stale_count_stops_next_run (st : Home) (r : Row) (rs : list Row) :
  url st <> EmptyString -> running st = false ->
  MAX_TOTAL_REQS <= sent (summary st) + 1 ->
  exists st0 st',
    startTest StringToNumber true st = Started st0 /\
    run StringToNumber st (r :: rs) = Some st' /\
    running st' = false /\
    workersRef st' = [] /\
    posted st' = (posted st0 ++ map (fun w => (w, Stop)) (workersRef st0))%list /\
    sent (summary st') = 1 + Z.of_nat (List.length rs) /\
    running (pushRow (summary st) r st0) = false /\
    sent (summary (pushRow (summary st) r st0)) = 1.
Proof.
  intros Hurl Hrun Hcap.
  destruct (run_unfold st (r :: rs) Hurl Hrun) as (st0 & E & Erun).
  exists st0, (pushRows (summary st) (r :: rs) st0).
  destruct (pushRows_stopping (summary st) r rs st0 Hcap) as (H1 & H2 & H3).
  destruct (pushRows_summary (summary st) (r :: rs) st0) as [Hs _].
  destruct (pushRow_stops (summary st) r st0 Hcap) as (H4 & _).
  pose proof (started_inv StringToNumber true st st0 E) as (_ & _ & _ & Hst0).
  assert (Hzero : sent (summary st0) = 0) by (rewrite Hst0; reflexivity).
  split; [exact E|]. split; [exact Erun|]. split; [exact H1|].
  split; [exact H2|]. split; [exact H3|].
  split; [rewrite Hs, Hzero; cbn [List.length]; lia|]. split; [exact H4|].
  rewrite pushRow_summary. cbn [count sent]. lia.
Qed.

End Runs.

Lemma page_stays_consistent_witness :
  consistent (fresh "http://localhost/") /\
  consistent (Page.handle first_seen
                [Protocol.RowEv answered_row; Protocol.DoneEv 1 1]
                (fresh "http://localhost/")).
Proof.
  assert (H : consistent (fresh "http://localhost/")) by (unfold consistent; cbn; lia).
  split; [exact H|].
  exact (proj1 (page_stays_consistent decimal_number first_seen
                  [Protocol.RowEv answered_row; Protocol.DoneEv 1 1]
                  (fresh "http://localhost/") H)).
Defined.

Lemma run_counts_from_zero_witness :
  (Page.url after_full_run <> EmptyString /\ Page.running after_full_run = false) /\
  exists st',
    Page.run decimal_number after_full_run [answered_row; failed_row] = Some st' /\
    Page.sent (Page.summary st') = 2 /\
    Page.rows st' = [failed_row; answered_row].
Proof.
  assert (Hurl : Page.url after_full_run <> EmptyString) by discriminate.
  assert (Hrun : Page.running after_full_run = false) by reflexivity.
  split; [split; assumption|].
  destruct (run_counts_from_zero decimal_number after_full_run
              [answered_row; failed_row] Hurl Hrun)
    as (st' & E & Hs & _ & Hrows & _).
  exists st'. split; [exact E|]. split; [exact Hs | exact Hrows].
Defined.

Lemma run_never_ends_by_itself_witness :
  (Page.startTest decimal_number true small_order = Page.Started small_started /\
   Page.sent (Page.summary small_order) + 1 < Page.MAX_TOTAL_REQS) /\
  Page.running
    (Page.handle (Page.summary small_order)
       [Protocol.RowEv answered_row; Protocol.DoneEv 2 1;
        Protocol.RowEv answered_row; Protocol.RowEv failed_row; Protocol.DoneEv 1 2]
       small_started) = true.
Proof.
  assert (H : Page.startTest decimal_number true small_order = Page.Started small_started)
    by reflexivity.
  assert (Hlow : Page.sent (Page.summary small_order) + 1 < Page.MAX_TOTAL_REQS)
    by (unfold Page.MAX_TOTAL_REQS; cbn; lia).
  split; [split; assumption|].
  exact (proj1 (run_never_ends_by_itself decimal_number true small_order small_started
                  [Protocol.RowEv answered_row; Protocol.DoneEv 2 1;
                   Protocol.RowEv answered_row; Protocol.RowEv failed_row;
                   Protocol.DoneEv 1 2] H Hlow)).
Defined.

Lemma stale_count_stops_next_run_witness :
  (Page.url after_full_run <> EmptyString /\ Page.running after_full_run = false /\
   Page.MAX_TOTAL_REQS <= Page.sent (Page.summary after_full_run) + 1) /\
  exists st0 st',
    Page.startTest decimal_number true after_full_run = Page.Started st0 /\
    Page.run decimal_number after_full_run [answered_row; failed_row] = Some st' /\
    Page.running st' = false /\
    Page.sent (Page.summary st') = 2.
Proof.
  assert (Hurl : Page.url after_full_run <> EmptyString) by discriminate.
  assert (Hrun : Page.running after_full_run = false) by reflexivity.
  assert (Hcap : Page.MAX_TOTAL_REQS <= Page.sent (Page.summary after_full_run) + 1)
    by (unfold Page.MAX_TOTAL_REQS; cbn; lia).
  split; [repeat split; assumption|].
  destruct (stale_count_stops_next_run decimal_number after_full_run
              answered_row [failed_row] Hurl Hrun Hcap)
    as (st0 & st' & E & Er & Hstop & _ & _ & Hs & _).
  exists st0, st'. split; [exact E|]. split; [exact Er|].
  split; [exact Hstop | exact Hs].
Defined.

(** ** The mount effect *)

Section Mount.
Import Page.
Variable StringToNumber : string -> JS.number.

Lemma sanitize_capped (cap : Z) (v : JS.value) :
  1 <= cap ->
  sanitize StringToNumber cap
    (if JS.gt (Number StringToNumber v) (JS.Fin cap) then JS.VNum (JS.Fin cap) else v)
  = sanitize StringToNumber cap v.
Proof.
  intros Hcap.
  destruct (JS.gt (Number StringToNumber v) (JS.Fin cap)) eqn:Hgt; [|reflexivity].
  rewrite !sanitize_is_clamp by assumption. cbn [Number].
  destruct (Number StringToNumber v) as [| |z|]; cbn in Hgt; try discriminate.
  - apply Z.ltb_lt in Hgt. f_equal. lia.
  - f_equal. lia.
Qed.

(** X10.  The effect run at mount, which sets a field above its cap to the
    cap, changes nothing of what a start computes: the three sanitized
    values are the same with and without it, and so is the outcome of a
    start up to the fields themselves; the effect touches neither the
    target, the buffer, the counters nor the workers, and it is idle on a
    page whose fields are numbers within their caps. *)
Theorem enforceCaps_is_redundant (st : Home) :
  c_of StringToNumber (enforceCaps StringToNumber st) = c_of StringToNumber st /\
  trs_of StringToNumber (enforceCaps StringToNumber st) = trs_of StringToNumber st /\
  rps_of StringToNumber (enforceCaps StringToNumber st) = rps_of StringToNumber st /\
  (forall confirmed st',
     startTest StringToNumber confirmed st = Started st' ->
     exists st'',
       startTest StringToNumber confirmed (enforceCaps StringToNumber st) = Started st'' /\
       posted st'' = posted st' /\ workersRef st'' = workersRef st') /\
  (url (enforceCaps StringToNumber st) = url st /\
   rows (enforceCaps StringToNumber st) = rows st /\
   summary (enforceCaps StringToNumber st) = summary st /\
   running (enforceCaps StringToNumber st) = running st) /\
  (forall c t r,
     concurrency st = JS.VNum (JS.Fin c) -> c <= MAX_CONCURRENCY ->
     totalRequests st = JS.VNum (JS.Fin t) -> t <= MAX_TOTAL_REQS ->
     targetRps st = JS.VNum (JS.Fin r) -> r <= MAX_REQS_PER_SEC ->
     enforceCaps StringToNumber st = st).
Proof.
  assert (Hc : c_of StringToNumber (enforceCaps StringToNumber st) = c_of StringToNumber st).
  { unfold c_of, enforceCaps. cbn [concurrency].
    rewrite sanitize_capped; [reflexivity|unfold MAX_CONCURRENCY; lia]. }
  assert (Ht : trs_of StringToNumber (enforceCaps StringToNumber st)
               = trs_of StringToNumber st).
  { unfold trs_of, enforceCaps. cbn [totalRequests].
    rewrite sanitize_capped; [reflexivity|unfold MAX_TOTAL_REQS; lia]. }
  assert (Hr : rps_of StringToNumber (enforceCaps StringToNumber st)
               = rps_of StringToNumber st).
  { unfold rps_of, enforceCaps. cbn [targetRps].
    rewrite sanitize_capped; [reflexivity|unfold MAX_REQS_PER_SEC; lia]. }
  split; [exact Hc|]. split; [exact Ht|]. split; [exact Hr|].
  split; [|split; [repeat split|]].
  - intros confirmed st' H.
    pose proof (started_inv StringToNumber confirmed st st' H) as (Hurl & Hrun & -> & ->).
    unfold startTest. rewrite Hc, Ht, Hr. cbn [enforceCaps url running posted].
    destruct (String.eqb_spec (url st) EmptyString); [contradiction|].
    rewrite Hrun. cbn. eexists. split; [reflexivity|]. split; reflexivity.
  - intros c t r Ec Hcc Et Htt Er Hrr. unfold enforceCaps.
    rewrite Ec, Et, Er. cbn [Number JS.gt].
    destruct (Z.ltb_spec MAX_CONCURRENCY c); [lia|].
    destruct (Z.ltb_spec MAX_TOTAL_REQS t); [lia|].
    destruct (Z.ltb_spec MAX_REQS_PER_SEC r); [lia|].
    rewrite <- Ec, <- Et, <- Er. destruct st; reflexivity.
Qed.

End Mount.

(** * Further properties of the worker *)

Section Pacing.
Import Protocol Worker.

(** X11.  The interval between two requests of a worker lies between 1 and
    1000 milliseconds and shrinks as the rate grows: it is 1000 for a rate
    of 1 or less and 1 for a rate of 1000 or more.  For a rate in between,
    rounding down makes the worker a little fast rather than slow: [rps]
    intervals fit in a second, and one millisecond more per interval would
    not.  A turn and its pause together last at least the interval. *)
Theorem intervalMs_bounds (rps rps' : Z) (a : Attempt) :
  1 <= intervalMs rps <= 1000 /\
  (rps <= 1 -> intervalMs rps = 1000) /\
  (1000 <= rps -> intervalMs rps = 1) /\
  (1 <= rps <= 1000 ->
     intervalMs rps * rps <= 1000 < (intervalMs rps + 1) * rps) /\
  (rps <= rps' -> intervalMs rps' <= intervalMs rps) /\
  start a + intervalMs rps
  <= looped a + total (sleeps_of (pace (intervalMs rps) a)).
Proof.
  unfold intervalMs.
  assert (Hdiv : forall r, 1 <= r -> 0 <= 1000 / r <= 1000).
  { intros r Hr. split; [apply Z.div_pos; lia|].
    apply Z.div_le_upper_bound; nia. }
  split; [|split; [|split; [|split; [|split]]]].
  - pose proof (Hdiv (Z.max 1 rps) ltac:(lia)). lia.
  - intros Hle. rewrite (Z.max_l 1 rps) by lia. reflexivity.
  - intros Hge. rewrite (Z.max_r 1 rps) by lia.
    destruct (Z.eq_dec rps 1000) as [->|Hne]; [reflexivity|].
    rewrite Z.div_small by lia. reflexivity.
  - intros Hr. rewrite (Z.max_r 1 rps) by lia.
    pose proof (Z.div_mod 1000 rps ltac:(lia)).
    pose proof (Z.mod_pos_bound 1000 rps ltac:(lia)).
    assert (1 <= 1000 / rps) by (apply Z.div_le_lower_bound; lia).
    rewrite Z.max_r by lia. nia.
  - intros Hle.
    assert (1000 / Z.max 1 rps' <= 1000 / Z.max 1 rps)
      by (apply Z.div_le_compat_l; lia).
    lia.
  - rewrite pace_wait. unfold nextWaitMs. lia.
Qed.

End Pacing.

Section Cancellation.
Import Protocol Worker.

Lemma posts_of_app (es1 es2 : list Effect) :
  posts_of (es1 ++ es2) = (posts_of es1 ++ posts_of es2)%list.
Proof. apply flat_map_app. Qed.

Lemma pace_posts (interval : Z) (a : Attempt) : posts_of (pace interval a) = [].
Proof. unfold pace. destruct (0 <? wait_of interval a); reflexivity. Qed.

Lemma yield_posts (sent : Z) : posts_of (yield sent) = [].
Proof. unfold yield. destruct (Z.rem sent 50 =? 0); reflexivity. Qed.

(** Whatever the world does, the loop posts the rows of the turns it takes,
    in order, and counts them. *)
Lemma loop_posts (env : nat -> Attempt) (id interval : Z) (todo i : nat) (sent : Z) :
  posts_of (fst (loop env id interval todo i sent))
  = map (fun k => RowEv (row_of id (env k))) (seq i (turns env todo i)) /\
  snd (loop env id interval todo i sent) = sent + Z.of_nat (turns env todo i).
Proof.
  revert i sent. induction todo as [|todo IH]; intros i sent.
  - cbn. split; [reflexivity|lia].
  - cbn [turns]. destruct (stopped (env i)) eqn:Hgo.
    + cbn [loop]. rewrite Hgo. cbn. split; [reflexivity|lia].
    + rewrite loop_cons by assumption. cbn [fst snd seq map].
      destruct (IH (S i) (sent + 1)) as [Hposts Hsent].
      split.
      * change (posts_of (?e :: ?l)) with (posts_of [e] ++ posts_of l)%list.
        rewrite !posts_of_app, pace_posts, yield_posts, Hposts. reflexivity.
      * rewrite Hsent. lia.
Qed.

Lemma turns_le (env : nat -> Attempt) (todo i : nat) : (turns env todo i <= todo)%nat.
Proof.
  revert i. induction todo as [|todo IH]; intros i; cbn; [lia|].
  destruct (stopped (env i)); [lia|]. specialize (IH (S i)). lia.
Qed.

Lemma turns_all (env : nat -> Attempt) (todo i : nat) :
  (forall k, (i <= k < i + todo)%nat -> stopped (env k) = false) ->
  turns env todo i = todo.
Proof.
  revert i. induction todo as [|todo IH]; intros i Hgo; [reflexivity|].
  cbn. rewrite Hgo by lia. f_equal. apply IH. intros k Hk. apply Hgo. lia.
Qed.

Lemma turns_first_stop (env : nat -> Attempt) (k todo i : nat) :
  (k < todo)%nat ->
  (forall j, (i <= j < i + k)%nat -> stopped (env j) = false) ->
  stopped (env (i + k)%nat) = true ->
  turns env todo i = k.
Proof.
  revert todo i. induction k as [|k IH]; intros todo i Hk Hgo Hstop.
  - destruct todo as [|todo]; [lia|]. cbn.
    rewrite Nat.add_0_r in Hstop. now rewrite Hstop.
  - destruct todo as [|todo]; [lia|]. cbn.
    rewrite Hgo by lia. f_equal. apply IH; [lia| |].
    + intros j Hj. apply Hgo. lia.
    + replace (S i + k)%nat with (i + S k)%nat by lia. exact Hstop.
Qed.

Lemma onmessage_posts (env : nat -> Attempt) (id : Z) (target : string) (requests rps : Z) :
  posts_of (onmessage env (Start id target requests rps))
  = (map (fun k => RowEv (row_of id (env k)))
         (seq 0 (turns env (Z.to_nat requests) 0))
     ++ [DoneEv id (Z.of_nat (turns env (Z.to_nat requests) 0))])%list.
Proof.
  unfold onmessage.
  destruct (loop_posts env id (intervalMs rps) (Z.to_nat requests) 0 0) as [Hposts Hsent].
  destruct (loop env id (intervalMs rps) (Z.to_nat requests) 0 0) as [did n].
  cbn [fst snd] in *. rewrite posts_of_app, Hposts, Hsent. reflexivity.
Qed.

(** X12.  Whatever the fetches do and whenever a stop is seen, a worker
    answers a start with the rows of the turns it took, in order, and then
    one done event whose count is the number of those rows; it posts nothing
    else.  It takes at most as many turns as it was given requests: all of
    them when it never finds the stop flag set, and otherwise exactly the
    turns before the first one that finds it set. *)
Theorem worker_honours_stop
        (env : nat -> Attempt) (id : Z) (target : string) (requests rps : Z) :
  posts_of (onmessage env (Start id target requests rps))
  = (map (fun k => RowEv (row_of id (env k)))
         (seq 0 (turns env (Z.to_nat requests) 0))
     ++ [DoneEv id (Z.of_nat (turns env (Z.to_nat requests) 0))])%list /\
  (turns env (Z.to_nat requests) 0 <= Z.to_nat requests)%nat /\
  ((forall k, (k < Z.to_nat requests)%nat -> stopped (env k) = false) ->
   turns env (Z.to_nat requests) 0 = Z.to_nat requests) /\
  (forall k, (k < Z.to_nat requests)%nat ->
     (forall j, (j < k)%nat -> stopped (env j) = false) ->
     stopped (env k) = true ->
     turns env (Z.to_nat requests) 0 = k).
Proof.
  split; [apply onmessage_posts|]. split; [apply turns_le|]. split.
  - intros Hgo. apply turns_all. intros k Hk. apply Hgo. lia.
  - intros k Hk Hgo Hstop. apply turns_first_stop; [assumption| |assumption].
    intros j Hj. apply Hgo. lia.
Qed.

Lemma payloads_app (l1 l2 : list FromWorker) :
  payloads (l1 ++ l2) = (payloads l1 ++ payloads l2)%list.
Proof. apply flat_map_app. Qed.

Lemma payloads_rows (rs : list Row) : payloads (map RowEv rs) = rs.
Proof. induction rs as [|r rs IH]; [reflexivity|]. cbn. f_equal. exact IH. Qed.

Lemma onmessage_payloads (env : nat -> Attempt) (id : Z) (target : string) (requests rps : Z) :
  payloads (posts_of (onmessage env (Start id target requests rps)))
  = map (fun k => row_of id (env k)) (seq 0 (turns env (Z.to_nat requests) 0)).
Proof.
  rewrite onmessage_posts, payloads_app.
  rewrite <- (map_map (fun k => row_of id (env k)) RowEv), payloads_rows.
  apply app_nil_r.
Qed.

(** X13.  A worker never posts an error event, so the page's branch for
    error events is never taken on a worker's report: handling what a worker
    posts in answer to a start is pushing the rows of the turns it took, and
    what it posts in answer to a stop leaves the page as it is. *)
Theorem page_handles_worker_posts
        (seen : Page.Summary) (st : Page.Home)
        (env : nat -> Attempt) (id : Z) (target : string) (requests rps : Z) (msg : ToWorker) :
  Forall (fun m => forall r, m <> ErrorEv r) (posts_of (onmessage env msg)) /\
  Page.handle seen (posts_of (onmessage env (Start id target requests rps))) st
  = Page.pushRows seen
      (map (fun k => row_of id (env k)) (seq 0 (turns env (Z.to_nat requests) 0))) st /\
  Page.handle seen (posts_of (onmessage env Stop)) st = st.
Proof.
  split; [|split].
  - destruct msg as [id' target' requests' rps'|].
    + rewrite onmessage_posts. apply Forall_app. split.
      * apply Forall_map, Forall_forall. intros k _ r. discriminate.
      * constructor; [intros r; discriminate|constructor].
    + cbn. constructor; [intros r; discriminate|constructor].
  - rewrite handle_pushes_payloads, onmessage_payloads. reflexivity.
  - reflexivity.
Qed.

Lemma length_slice0 (n : nat) (s : string) : (String.length (JS.slice0 n s) <= n)%nat.
Proof.
  unfold JS.slice0. revert s. induction n as [|n IH]; intros s.
  - destruct s; cbn; lia.
  - destruct s as [|ch s]; cbn; [lia|]. specialize (IH s). lia.
Qed.

Lemma slice0_not_empty (n : nat) (s : string) :
  s <> EmptyString -> JS.slice0 (S n) s <> EmptyString.
Proof. destruct s; [contradiction|]. cbn. discriminate. Qed.

(** X14.  Every row a worker posts carries the worker's id, the timestamp
    of the turn and the time the fetch took to settle, and a snippet of at
    most 300 characters.  It has a status exactly when the fetch was
    answered; it is marked as an error exactly when the fetch was rejected
    or answered with a status of 400 or more; and the snippet of a rejected
    fetch is never empty. *)
Theorem row_of_contents (id : Z) (a : Attempt) :
  workerId (row_of id a) = id /\
  timestamp (row_of id a) = iso a /\
  timeMs (row_of id a) = settled a - start a /\
  (String.length (snippet (row_of id a)) <= 300)%nat /\
  (statusCode (row_of id a) = None <-> exists message, fetched a = Rejected message) /\
  (forall status text, fetched a = Response status text ->
     statusCode (row_of id a) = Some status /\
     (error (row_of id a) = true <-> 400 <= status)) /\
  (forall message, fetched a = Rejected message ->
     error (row_of id a) = true /\ snippet (row_of id a) <> EmptyString).
Proof.
  unfold row_of. destruct (fetched a) as [status text|message].
  - cbn. repeat split; try discriminate.
    + destruct text as [t|]; [apply length_slice0|cbn; lia].
    + intros [message E]. discriminate.
    + injection H as <- _. reflexivity.
    + injection H as <- _. intros E. now apply Z.leb_le.
    + injection H as <- _. intros E. now apply Z.leb_le.
  - cbn. repeat split; try discriminate.
    + destruct message as [m|]; [|cbn; lia].
      destruct (String.eqb m EmptyString); [cbn; lia|apply length_slice0].
    + intros _. eexists. reflexivity.
    + destruct message as [m|]; [|discriminate].
      destruct (String.eqb_spec m EmptyString); [discriminate|].
      now apply slice0_not_empty.
Qed.

End Cancellation.

(** * The page and its workers together *)

Section System.
Import Protocol Page.
Variable StringToNumber : string -> JS.number.

Lemma done_events_app (l1 l2 : list FromWorker) :
  done_events (l1 ++ l2) = (done_events l1 ++ done_events l2)%list.
Proof. apply flat_map_app. Qed.

Lemma done_events_rows (rs : list Row) : done_events (map RowEv rs) = [].
Proof. induction rs as [|r rs IH]; [reflexivity|exact IH]. Qed.

(** What the workers of a run report when none of them is ever stopped:
    as many rows as were assigned, and one done event each. *)
Lemma reports_uncancelled (envs : Z -> nat -> Worker.Attempt) (u : string)
      (trs c rps : Z) (l : list Z) :
  (forall w k, Worker.stopped (envs w k) = false) ->
  1 <= trs -> 1 <= c ->
  Z.of_nat (List.length
              (payloads
                 (reports envs
                    (map (fun i => (i + 1, Start (i + 1) u (assigned trs c i)
                                                 (perWorkerRps rps c))) l))))
  = total (map (assigned trs c) l) /\
  done_events
    (reports envs
       (map (fun i => (i + 1, Start (i + 1) u (assigned trs c i) (perWorkerRps rps c))) l))
  = map (fun i => (i + 1, assigned trs c i)) l.
Proof.
  intros Hgo Ht Hc. induction l as [|i l [IHp IHd]]; [split; reflexivity|].
  unfold reports in *. cbn [map flat_map fst snd].
  rewrite payloads_app, done_events_app, length_app, Nat2Z.inj_add, IHp, IHd.
  pose proof (assigned_nonneg trs c i Ht Hc) as Hn.
  assert (Hturns : turns (envs (i + 1)) (Z.to_nat (assigned trs c i)) 0
                   = Z.to_nat (assigned trs c i))
    by (apply turns_all; intros k _; apply Hgo).
  split.
  - rewrite onmessage_payloads, length_map, length_seq, Hturns, Z2Nat.id by lia.
    reflexivity.
  - rewrite onmessage_posts, done_events_app.
    rewrite <- (map_map (fun k => Worker.row_of (i + 1) (envs (i + 1) k)) RowEv).
    rewrite done_events_rows, Hturns, Z2Nat.id by lia. reflexivity.
Qed.

(** X15.  For integers, a total and a worker count of at least 1: when
    the workers that the loop of [startTest] starts are never stopped,
    however their reports interleave, handling them all makes the sent
    count of the page grow by exactly the total and its error count by the
    number of rows marked as errors (from the zeroed counters of a start,
    the sent count is the total), and every worker has reported done
    exactly once, with the count it was assigned. *)
Theorem whole_run_delivers_total
        (envs : Z -> nat -> Worker.Attempt) (u : string) (trs c rps : Z)
        (seen : Summary) (st : Home) (msgs : list FromWorker) :
  1 <= trs -> 1 <= c ->
  (forall w k, Worker.stopped (envs w k) = false) ->
  Permutation msgs (reports envs (spawn u trs c rps)) ->
  sent (summary (handle seen msgs st)) = sent (summary st) + trs /\
  errors (summary (handle seen msgs st))
  = errors (summary st) + Z.of_nat (List.length (filter error (payloads msgs))) /\
  (summary st = {| sent := 0; errors := 0 |} ->
   sent (summary (handle seen msgs st)) = trs) /\
  Permutation (done_events msgs)
    (map (fun i => (i + 1, assigned trs c i)) (indices c)) /\
  total (map snd (done_events msgs)) = trs.
Proof.
  intros Ht Hc Hgo Hperm.
  destruct (reports_uncancelled envs u trs c rps (indices c) Hgo Ht Hc)
    as [Hcount Hdone].
  fold (spawn u trs c rps) in Hcount, Hdone.
  fold (assignments trs c) in Hcount.
  rewrite assignments_total in Hcount by lia.
  assert (Hpay : Permutation (payloads msgs) (payloads (reports envs (spawn u trs c rps))))
    by (apply Permutation_flat_map, Hperm).
  assert (Hdon : Permutation (done_events msgs)
                             (done_events (reports envs (spawn u trs c rps))))
    by (apply Permutation_flat_map, Hperm).
  rewrite Hdone in Hdon.
  rewrite handle_pushes_payloads.
  destruct (pushRows_summary seen (payloads msgs) st) as [Hs He].
  assert (Hsent : sent (summary (pushRows seen (payloads msgs) st))
                  = sent (summary st) + trs)
    by (rewrite Hs, (Permutation_length Hpay), Hcount; reflexivity).
  split; [exact Hsent|]. split; [exact He|]. split; [|split].
  - intros E. rewrite Hsent, E. cbn. lia.
  - exact Hdon.
  - assert (Hsnd : Permutation (map snd (done_events msgs)) (assignments trs c)).
    { unfold assignments.
      rewrite <- (map_map (fun i => (i + 1, assigned trs c i)) snd).
      apply Permutation_map, Hdon. }
    assert (Htot : forall l l' : list Z, Permutation l l' -> total l = total l').
    { unfold total. induction 1; cbn; lia. }
    rewrite (Htot _ _ Hsnd). apply assignments_total; lia.
Qed.

(** X16.  With more workers than requests, a worker beyond the first ones,
    as many as there are requests, is started with no request at all, and a
    worker started with no request, or with a negative count, reports done
    at once with a count of 0, without a single fetch, row or pause. *)
Theorem idle_workers (env : nat -> Worker.Attempt) (u : string) (trs c rps i : Z) :
  1 <= trs -> trs < c -> trs <= i < c ->
  assigned trs c i = 0 /\
  Worker.onmessage env (Start (i + 1) u (assigned trs c i) rps)
  = [Worker.PostMessage (DoneEv (i + 1) 0)] /\
  (forall id requests,
     requests <= 0 ->
     Worker.onmessage env (Start id u requests rps) = [Worker.PostMessage (DoneEv id 0)]).
Proof.
  intros Ht Hlt Hi.
  assert (Hzero : assigned trs c i = 0).
  { unfold assigned, requestsPerWorker. rewrite remainder_is_mod by lia.
    rewrite Z.div_small, Z.mod_small by lia.
    destruct (Z.ltb_spec i trs); lia. }
  split; [exact Hzero|]. split.
  - rewrite Hzero. reflexivity.
  - intros id requests Hle. unfold Worker.onmessage.
    replace (Z.to_nat requests) with 0%nat by lia. reflexivity.
Qed.

End System.

Lemma whole_run_delivers_total_witness :
  (1 <= 3 /\ 1 <= 2 /\
   (forall w k, Worker.stopped (all_answer w k) = false) /\
   Permutation
     (rev (reports all_answer (Page.spawn "http://localhost/" 3 2 100)))
     (reports all_answer (Page.spawn "http://localhost/" 3 2 100))) /\
  Page.sent
    (Page.summary
       (Page.handle first_seen
          (rev (reports all_answer (Page.spawn "http://localhost/" 3 2 100)))
          small_started)) = 3.
Proof.
  assert (Hgo : forall w k, Worker.stopped (all_answer w k) = false)
    by (intros w k; reflexivity).
  assert (Hperm : Permutation
                    (rev (reports all_answer (Page.spawn "http://localhost/" 3 2 100)))
                    (reports all_answer (Page.spawn "http://localhost/" 3 2 100)))
    by (apply Permutation_sym, Permutation_rev).
  split; [split; [lia|split; [lia|split; assumption]]|].
  exact (proj1 (whole_run_delivers_total all_answer "http://localhost/" 3 2 100
                  first_seen small_started _ ltac:(lia) ltac:(lia) Hgo Hperm)).
Defined.

Lemma idle_workers_witness :
  (1 <= 3 /\ 3 < 5 /\ 3 <= 4 < 5) /\
  Worker.onmessage stop_at_two (Protocol.Start 5 "http://localhost/" (Page.assigned 3 5 4) 100)
  = [Worker.PostMessage (Protocol.DoneEv 5 0)].
Proof.
  split; [lia|].
  destruct (idle_workers stop_at_two "http://localhost/" 3 5 100 4
              ltac:(lia) ltac:(lia) ltac:(lia)) as (_ & H & _).
  exact H.
Defined.

(** * The export of what a run has buffered *)

Section ExportOfRuns.
Import Protocol Page CsvReader.
Variable StringToNumber : string -> JS.number.

Lemma Forall_firstn_of {A} (P : A -> Prop) (n : nat) (l : list A) :
  Forall P l -> Forall P (firstn n l).
Proof.
  intros H. rewrite <- (firstn_skipn n l) in H.
  now apply Forall_app in H.
Qed.

Lemma newest_first_reversed {A} (n : nat) (l : list A) :
  rev (firstn n (rev l)) = skipn (List.length l - n) l.
Proof. rewrite firstn_rev, !rev_involutive. reflexivity. Qed.

(** X17.  Exporting after a run gives back the run's rows: when every row
    that came in is exportable, the export reads back as the header and the
    last 2000 rows of the run in the order they came in (all of them when
    the run had at most 2000), and nothing of what the buffer held before
    the run. *)
Theorem export_after_run (st : Home) (rs : list Row) :
  url st <> EmptyString -> running st = false ->
  Forall (fun r => exportable r = true) rs ->
  exists st',
    run StringToNumber st rs = Some st' /\
    read (exportCSV st') = Some (header_cells, skipn (List.length rs - 2000) rs) /\
    ((List.length rs <= 2000)%nat -> read (exportCSV st') = Some (header_cells, rs)).
Proof.
  intros Hurl Hrun Hrs.
  destruct (run_unfold StringToNumber st rs Hurl Hrun) as (st0 & E & ->).
  apply started_inv in E as (_ & _ & _ & ->).
  eexists. split; [reflexivity|].
  match goal with
  | |- context [exportCSV (pushRows ?seen rs ?st0)] =>
      pose proof (pushRows_rows seen rs st0) as Hrows;
      pose proof (read_exportCSV (pushRows seen rs st0)) as Hread
  end.
  cbn [rows List.length] in Hrows. rewrite app_nil_r in Hrows.
  specialize (Hrows ltac:(lia)). rewrite Hrows in Hread.
  rewrite newest_first_reversed in Hread.
  assert (H : Forall (fun r => exportable r = true) (firstn 2000 (rev rs)))
    by (apply Forall_firstn_of, Forall_rev, Hrs).
  specialize (Hread H). split; [exact Hread|].
  intros Hlen. rewrite Hread.
  replace (List.length rs - 2000)%nat with 0%nat by lia. reflexivity.
Qed.

(** X18.  What a worker reports survives the export: on a page with an
    empty buffer, after the reports of a worker that was asked for at most
    2000 requests have been handled, the export reads back as the header
    and the rows of the turns the worker took, in order, provided the
    timestamps of the turns are free of commas, quotes and line feeds and
    no response came with a status of 0. *)
Theorem worker_rows_survive_export
        (seen : Summary) (st : Home) (env : nat -> Worker.Attempt)
        (id : Z) (target : string) (requests rps : Z) :
  rows st = [] -> requests <= 2000 ->
  (forall k, plain (Worker.iso (env k)) = true) ->
  (forall k status text, Worker.fetched (env k) = Worker.Response status text ->
                         status <> 0%Z) ->
  read (exportCSV
          (handle seen (Worker.posts_of (Worker.onmessage env (Start id target requests rps)))
                  st))
  = Some (header_cells,
          map (fun k => Worker.row_of id (env k))
              (seq 0 (turns env (Z.to_nat requests) 0))).
Proof.
  intros Hempty Hreq Hiso Hstatus.
  rewrite handle_pushes_payloads, onmessage_payloads.
  set (rs := map (fun k => Worker.row_of id (env k))
                 (seq 0 (turns env (Z.to_nat requests) 0))).
  assert (Hlen : (List.length rs <= 2000)%nat).
  { unfold rs. rewrite length_map, length_seq.
    pose proof (turns_le env (Z.to_nat requests) 0). lia. }
  assert (Hrs : Forall (fun r => exportable r = true) rs).
  { unfold rs. apply Forall_map, Forall_forall. intros k _.
    apply row_of_exportable; [apply Hiso|apply Hstatus]. }
  pose proof (pushRows_rows seen rs st) as Hrows.
  rewrite Hempty in Hrows. cbn [List.length] in Hrows. rewrite app_nil_r in Hrows.
  specialize (Hrows ltac:(lia)).
  rewrite firstn_all2 in Hrows by (rewrite length_rev; exact Hlen).
  rewrite read_exportCSV; rewrite Hrows.
  - now rewrite rev_involutive.
  - apply Forall_rev, Hrs.
Qed.

End ExportOfRuns.

Lemma export_after_run_witness :
  (Page.url after_full_run <> EmptyString /\ Page.running after_full_run = false /\
   Forall (fun r => exportable r = true) [answered_row; tricky_row; failed_row]) /\
  exists st',
    Page.run decimal_number after_full_run [answered_row; tricky_row; failed_row] = Some st' /\
    CsvReader.read (Page.exportCSV st')
    = Some (header_cells, [answered_row; tricky_row; failed_row]).
Proof.
  assert (Hurl : Page.url after_full_run <> EmptyString) by discriminate.
  assert (Hrun : Page.running after_full_run = false) by reflexivity.
  assert (Hrs : Forall (fun r => exportable r = true) [answered_row; tricky_row; failed_row])
    by (repeat constructor).
  split; [repeat split; assumption|].
  destruct (export_after_run decimal_number after_full_run
              [answered_row; tricky_row; failed_row] Hurl Hrun Hrs)
    as (st' & E & _ & Hread).
  exists st'. split; [exact E|]. apply Hread. cbn. lia.
Defined.

Lemma worker_rows_survive_export_witness :
  (Page.rows (fresh "http://localhost/") = [] /\ 3 <= 2000 /\
   (forall k, CsvReader.plain (Worker.iso (all_answer 1 k)) = true) /\
   (forall k status text,
      Worker.fetched (all_answer 1 k) = Worker.Response status text -> status <> 0)) /\
  CsvReader.read
    (Page.exportCSV
       (Page.handle first_seen
          (Worker.posts_of
             (Worker.onmessage (all_answer 1) (Protocol.Start 1 "http://localhost/" 3 100)))
          (fresh "http://localhost/")))
  = Some (header_cells,
          [Worker.row_of 1 (all_answer 1 0%nat); Worker.row_of 1 (all_answer 1 1%nat);
           Worker.row_of 1 (all_answer 1 2%nat)]).
Proof.
  assert (Hiso : forall k, CsvReader.plain (Worker.iso (all_answer 1 k)) = true)
    by (intros k; reflexivity).
  assert (Hstatus : forall k status text,
             Worker.fetched (all_answer 1 k) = Worker.Response status text -> status <> 0).
  { intros k status text E. cbn in E. injection E as <- _. discriminate. }
  split; [split; [reflexivity|split; [lia|split; [exact Hiso|exact Hstatus]]]|].
  exact (worker_rows_survive_export first_seen (fresh "http://localhost/") (all_answer 1)
           1 "http://localhost/" 3 100 eq_refl ltac:(lia) Hiso Hstatus).
Defined.

Lemma exportCSV_injective_witness :
  (Forall (fun r => exportable r = true)
          (Page.rows (holding [tricky_row; answered_row])) /\
   Forall (fun r => exportable r = true)
          (Page.rows (Page.pushRows first_seen [answered_row; tricky_row]
                        (fresh "http://localhost/"))) /\
   Page.exportCSV (holding [tricky_row; answered_row])
   = Page.exportCSV (Page.pushRows first_seen [answered_row; tricky_row]
                       (fresh "http://localhost/"))) /\
  Page.rows (holding [tricky_row; answered_row])
  = Page.rows (Page.pushRows first_seen [answered_row; tricky_row] (fresh "http://localhost/")).
Proof.
  assert (H1 : Forall (fun r => exportable r = true)
                      (Page.rows (holding [tricky_row; answered_row])))
    by (repeat constructor).
  assert (H2 : Forall (fun r => exportable r = true)
                      (Page.rows (Page.pushRows first_seen [answered_row; tricky_row]
                                    (fresh "http://localhost/"))))
    by (repeat constructor).
  assert (E : Page.exportCSV (holding [tricky_row; answered_row])
              = Page.exportCSV (Page.pushRows first_seen [answered_row; tricky_row]
                                  (fresh "http://localhost/")))
    by reflexivity.
  split; [repeat split; assumption|].
  exact (exportCSV_injective _ _ H1 H2 E).
Defined.

(** * Stopping a run *)

Section StopOfRuns.
Import Protocol Page.
Variable StringToNumber : string -> JS.number.

(** X20.  A stop reaches every worker of the run, once each and in the
    order they were started, also those that have reported done already:
    while the handlers read a count below the cap, whatever the workers
    have reported, the messages posted up to and including the stop are
    the start of every worker followed by a stop to every worker, and the
    buffer and the counters are those from before the stop. *)
Theorem stop_reaches_every_worker (st st' : Home) (msgs : list FromWorker) :
  startTest StringToNumber true st = Started st' ->
  sent (summary st) + 1 < MAX_TOTAL_REQS ->
  exists ws,
    posted st' = (posted st ++ ws)%list /\
    posted (stopTest (handle (summary st) msgs st'))
    = (posted st ++ ws ++ map (fun wm => (fst wm, Stop)) ws)%list /\
    running (stopTest (handle (summary st) msgs st')) = false /\
    rows (stopTest (handle (summary st) msgs st')) = rows (handle (summary st) msgs st') /\
    summary (stopTest (handle (summary st) msgs st'))
    = summary (handle (summary st) msgs st').
Proof.
  intros H Hlow. rewrite handle_pushes_payloads.
  destruct (pushRows_quiet (summary st) (payloads msgs) st' Hlow) as (_ & Hw & Hp).
  apply started_inv in H as (_ & _ & _ & Hst').
  exists (spawn (url st) (trs_of StringToNumber st)
                (c_of StringToNumber st) (rps_of StringToNumber st)).
  split; [rewrite Hst'; reflexivity|].
  split; [|repeat split].
  cbn [stopTest posted]. rewrite Hw, Hp, Hst'. cbn [posted workersRef].
  rewrite map_map, <- app_assoc. reflexivity.
Qed.

End StopOfRuns.

Lemma stop_reaches_every_worker_witness :
  (Page.startTest decimal_number true small_order = Page.Started small_started /\
   Page.sent (Page.summary small_order) + 1 < Page.MAX_TOTAL_REQS) /\
  Page.posted
    (Page.stopTest
       (Page.handle (Page.summary small_order)
          [Protocol.RowEv answered_row; Protocol.DoneEv 2 1] small_started))
  = [(1, Protocol.Start 1 "http://localhost/" 2 100);
     (2, Protocol.Start 2 "http://localhost/" 1 100);
     (1, Protocol.Stop); (2, Protocol.Stop)].
Proof.
  assert (H : Page.startTest decimal_number true small_order = Page.Started small_started)
    by reflexivity.
  assert (Hlow : Page.sent (Page.summary small_order) + 1 < Page.MAX_TOTAL_REQS)
    by (unfold Page.MAX_TOTAL_REQS; cbn; lia).
  split; [split; assumption|].
  destruct (stop_reaches_every_worker decimal_number small_order small_started
              [Protocol.RowEv answered_row; Protocol.DoneEv 2 1] H Hlow)
    as (ws & Hstart & Hstop & _).
  cbn [Page.posted small_started small_order app] in Hstart. subst ws.
  exact Hstop.
Defined.
